(** * Starkiller asset pipeline: the two converter scripts

    A shallow embedding of
    - [Assets/_Temp/excel_to_csv.py]  (SheetSplitter: one CSV file per sheet), and
    - [Assets/convert_to_excel.py]    (CatalogMerger: one sheet per category),
    and the properties of the specification checked against them.

    Python values are modelled as the scripts use them: a [str] is a list
    of Unicode code points, a DataFrame is a list of column names with a
    list of indexed rows, the file system is a finite map from paths to
    nodes, and a script is a function in a state-and-exception monad
    over the file system and the two output streams.

    What the scripts call and do not define is modelled as documented:
    - [str.replace], [os.path.join], [re.sub] with the class [\w] of a
      [str] pattern (Unicode letters and digits and the underscore);
    - [os.makedirs]: the parents that are missing are made first, and
      they stay when a directory after them cannot be made;
    - [repr] of a [str], which writes the path in the text of an
      operating system's error, and the traceback of an exception
      nobody caught, whose last line names the class, with its module
      unless it is a built-in one, and gives the text;
    - [DataFrame.groupby] with its defaults: the groups come in ascending
      order of their keys ([sort=True]) and rows with a missing key are
      in no group ([dropna=True]); [fillna], [reset_index];
    - [pd.ExcelWriter] in write mode: [to_excel] under a title the book
      has writes over that sheet, and leaving the [with] block saves the
      book, also when the block raised.
    The Unicode tables beyond Latin-1, the operating system's verdict on
    a directory or a write, the CSV writer and parser, the creation of a
    sheet by the workbook library, and the stack-frame lines of a
    traceback are parameters of the development.  The output streams
    hold what the scripts and the interpreter print; warnings that a
    library may add to the standard error are not modelled. *)

From Stdlib Require Import ZArith NArith String Ascii DecimalString.
From stdpp Require Import base list gmap sorting.

Local Open Scope N_scope.

(** ** Python strings *)

(** A Python [str]: a sequence of Unicode code points. *)
Abbreviation str := (list N).

(** Text of an ASCII literal. *)
Fixpoint py (s : string) : str :=
  match s with
  | EmptyString => []
  | String a s' => N_of_ascii a :: py s'
  end.
Arguments py s%_string_scope.

(** [s.startswith(p)] *)
Fixpoint startswith (p s : str) : bool :=
  match p, s with
  | [], _ => true
  | _ :: _, [] => false
  | a :: p', b :: s' => (a =? b) && startswith p' s'
  end.

(** The scan of [str.replace] for a non-empty [old]: left to right, the
    occurrences replaced do not overlap.  [skip] counts the characters of
    the occurrence just replaced that are still to be passed over. *)
Fixpoint replace_from (old new : str) (skip : nat) (s : str) : str :=
  match s with
  | [] => []
  | c :: s' =>
      match skip with
      | S k => replace_from old new k s'
      | O =>
          if startswith old s
          then new ++ replace_from old new (Nat.pred (length old)) s'
          else c :: replace_from old new O s'
      end
  end.

(** [s.replace(old, new)]; an empty [old] matches before every character
    and at the end. *)
Definition str_replace (old new s : str) : str :=
  match old with
  | [] => new ++ flat_map (λ c, c :: new) s
  | _ :: _ => replace_from old new O s
  end.

(** Lexicographic comparison of two strings by code point: [a <= b]. *)
Fixpoint str_leb (a b : str) : bool :=
  match a, b with
  | [], _ => true
  | _ :: _, [] => false
  | x :: a', y :: b' => (x <? y) || ((x =? y) && str_leb a' b')
  end.

Definition str_le : relation str := λ a b, str_leb a b = true.

#[global] Instance str_le_dec (a b : str) : Decision (str_le a b).
Proof. unfold str_le. apply _. Defined.

(** [str(n)] for a length. *)
Definition str_of_nat (n : nat) : str := py (NilZero.string_of_uint (Nat.to_uint n)).

Definition slash : N := 47.

(** [s.endswith('/')] *)
Definition ends_with_slash (s : str) : bool :=
  match last s with
  | Some c => c =? slash
  | None => false
  end.

(** [os.path.join(a, b)] of [posixpath]: an absolute [b] stands alone,
    and a separator is added unless [a] is empty or ends with one. *)
Definition path_join (a b : str) : str :=
  if startswith [slash] b then b
  else if bool_decide (a = []) || ends_with_slash a then a ++ b
  else a ++ [slash] ++ b.

(** The cut of [posixpath.split] at the last separator: what comes up
    to and with it, and what follows it. *)
Fixpoint split_last_slash (p : str) : str * str :=
  match p with
  | [] => ([], [])
  | c :: p' =>
      let '(h, t) := split_last_slash p' in
      match h with
      | _ :: _ => (c :: h, t)
      | [] => if c =? slash then ([c], t) else ([], c :: t)
      end
  end.

(** [s.rstrip('/')] *)
Fixpoint rstrip_slash (s : str) : str :=
  match s with
  | [] => []
  | c :: s' =>
      match rstrip_slash s' with
      | [] => if c =? slash then [] else [c]
      | r => c :: r
      end
  end.

(** [os.path.split(p)] of [posixpath]: the head loses its trailing
    separators unless it has nothing else. *)
Definition path_split (p : str) : str * str :=
  let '(head, tail) := split_last_slash p in
  (if forallb (λ c, c =? slash) head then head else rstrip_slash head, tail).

(** ** Tables, workbooks and files *)

(** A cell value: text, a number, or the missing value (NaN).  Neither
    script computes with numbers; they are integers here. *)
Inductive cell :=
  | CStr (s : str)
  | CNum (z : Z)
  | CNaN.

#[global] Instance cell_eq_dec : EqDecision cell.
Proof. solve_decision. Defined.

(** A stored table (a sheet of a workbook, a parsed delimited file): the
    header row and the data rows. *)
Record table := Table {
  columns : list str;
  body : list (list cell)
}.

(** A [pandas.DataFrame]: the column names and the rows, each with its
    index label. *)
Record DataFrame := Frame {
  df_columns : list str;
  df_rows : list (N * list cell)
}.

(** A workbook: its sheets by title, in sheet order. *)
Abbreviation workbook := (list (str * table)).

Definition sheet_names (wb : workbook) : list str := wb.*1.

Inductive content :=
  | Text (t : str)
  | Book (wb : workbook).

Inductive node :=
  | Dir
  | File (c : content).

(** What a process sees and leaves behind: the file system and the two
    output streams (lines printed, oldest first). *)
Record world := World {
  fs : gmap str node;
  stdout : list str;
  stderr : list str
}.

Definition set_fs (f : gmap str node → gmap str node) (w : world) : world :=
  World (f (fs w)) (stdout w) (stderr w).

(** ** Exceptions *)

Inductive exn :=
  | FileNotFoundError (p : str)
  | FileExistsError (p : str)
  | IsADirectoryError (p : str)
  | PermissionError (p : str)
  | KeyError (k : str)
  | AttributeError (msg : str)
  | ValueError (msg : str)
  | IndexError (msg : str)
  | ParserError (msg : str).

(** [type(e).__name__] *)
Definition exn_class (e : exn) : str :=
  match e with
  | FileNotFoundError _ => py "FileNotFoundError"
  | FileExistsError _ => py "FileExistsError"
  | IsADirectoryError _ => py "IsADirectoryError"
  | PermissionError _ => py "PermissionError"
  | KeyError _ => py "KeyError"
  | AttributeError _ => py "AttributeError"
  | ValueError _ => py "ValueError"
  | IndexError _ => py "IndexError"
  | ParserError _ => py "ParserError"
  end.

(** The name a traceback gives the class: with its module, unless the
    class is a built-in one. *)
Definition exn_qualname (e : exn) : str :=
  match e with
  | ParserError _ => py "pandas.errors." ++ exn_class e
  | _ => exn_class e
  end.

(** ** Computations that change a state and may raise *)

Inductive outcome (A : Type) :=
  | Ok (a : A)
  | Raise (e : exn).
Arguments Ok {A} a.
Arguments Raise {A} e.

Definition M (S A : Type) : Type := S → outcome A * S.

Definition ret {S A} (a : A) : M S A := λ s, (Ok a, s).

Definition raise {S A} (e : exn) : M S A := λ s, (Raise e, s).

Definition bind {S A B} (m : M S A) (k : A → M S B) : M S B :=
  λ s, match m s with
       | (Ok a, s') => k a s'
       | (Raise e, s') => (Raise e, s')
       end.

Notation "x <~ m ;; k" := (bind m (λ x, k))
  (at level 100, m at next level, right associativity).
Notation "m ;;; k" := (bind m (λ _, k))
  (at level 100, right associativity).

(** [try: body  except Exception as e: handler(e)] *)
Definition try_except {S A} (body : M S A) (handler : exn → M S A) : M S A :=
  λ s, match body s with
       | (Ok a, s') => (Ok a, s')
       | (Raise e, s') => handler e s'
       end.

(** [for x in xs: body(x)] *)
Fixpoint for_each {S A} (xs : list A) (body : A → M S unit) : M S unit :=
  match xs with
  | [] => ret tt
  | x :: xs' => body x ;;; for_each xs' body
  end.

(** [print(line)] and [print(line, file=sys.stderr)] *)
Definition print (line : str) : M world unit :=
  λ w, (Ok tt, World (fs w) (stdout w ++ [line]) (stderr w)).

Definition eprint (line : str) : M world unit :=
  λ w, (Ok tt, World (fs w) (stdout w) (stderr w ++ [line])).

(** The requests to the operating system that create or overwrite. *)
Inductive syscall :=
  | Mkdir (p : str)
  | OpenWrite (p : str).

(** ** pandas frames *)

(** A table read into a frame gets the index 0, 1, 2, ... *)
Definition range_index (rows : list (list cell)) : list (N * list cell) :=
  imap (λ i r, (N.of_nat i, r)) rows.

Definition frame_of_table (t : table) : DataFrame :=
  Frame (columns t) (range_index (body t)).

(** What [to_csv] and [to_excel] store with [index=False]: the header
    and the rows without their labels. *)
Definition table_of_frame (df : DataFrame) : table :=
  Table (df_columns df) (df_rows df).*2.

(** [df.fillna(value)] *)
Definition fillna_cell (value : cell) (c : cell) : cell :=
  match c with
  | CNaN => value
  | _ => c
  end.

Definition fillna (value : cell) (df : DataFrame) : DataFrame :=
  Frame (df_columns df)
        (map (λ r, (r.1, map (fillna_cell value) r.2)) (df_rows df)).

(** [df.reset_index(drop=True)] *)
Definition reset_index (df : DataFrame) : DataFrame :=
  Frame (df_columns df) (range_index (df_rows df).*2).

(** The position of the first column with that name. *)
Definition column_index (name : str) (cols : list str) : option nat :=
  fst <$> list_find (λ c, c = name) cols.

(** The value of a row in the column at a position. *)
Definition cell_at (i : nat) (row : list cell) : cell :=
  default CNaN (row !! i).

(** A group key: the value the rows of a group share.  The missing value
    is no key. *)
Inductive key :=
  | KNum (z : Z)
  | KStr (s : str).

#[global] Instance key_eq_dec : EqDecision key.
Proof. solve_decision. Defined.

Definition key_of (c : cell) : option key :=
  match c with
  | CStr s => Some (KStr s)
  | CNum z => Some (KNum z)
  | CNaN => None
  end.

Definition num_of_key (k : key) : option Z :=
  match k with
  | KNum z => Some z
  | KStr _ => None
  end.

Definition str_of_key (k : key) : option str :=
  match k with
  | KNum _ => None
  | KStr s => Some s
  end.

(** The order in which [groupby] yields its groups ([sort=True]): the
    keys ascending, numbers before text. *)
Definition sort_keys (ks : list key) : list key :=
  (KNum <$> merge_sort Z.le (omap num_of_key ks))
  ++ (KStr <$> merge_sort str_le (omap str_of_key ks)).

(** [df.groupby(by_)], iterated: the pairs of a key and the frame of the
    rows with that key, in their order and with their labels.  Rows whose
    key is missing are in no group ([dropna=True]). *)
Definition groupby {S} (by_ : str) (df : DataFrame) : M S (list (key * DataFrame)) :=
  match column_index by_ (df_columns df) with
  | None => raise (KeyError by_)
  | Some i =>
      let key_of_row := λ r : N * list cell, key_of (cell_at i r.2) in
      let keys := sort_keys (remove_dups (omap key_of_row (df_rows df))) in
      ret (map (λ k, (k, Frame (df_columns df)
                               (filter (λ r, key_of_row r = Some k) (df_rows df))))
               keys)
  end.

(** [d[k] = v] on a [dict]: a key already there keeps its place. *)
Fixpoint dict_set {V} (k : key) (v : V) (d : list (key * V)) : list (key * V) :=
  match d with
  | [] => [(k, v)]
  | (k', v') :: d' =>
      if decide (k = k') then (k', v) :: d' else (k', v') :: dict_set k v d'
  end.

(** Cells written over the cells of an existing sheet: a cell not
    written keeps its value. *)
Fixpoint overlay_row {A} (new old : list A) : list A :=
  match new, old with
  | [], _ => old
  | _ :: _, [] => new
  | x :: new', _ :: old' => x :: overlay_row new' old'
  end.

Fixpoint overlay_rows {A} (new old : list (list A)) : list (list A) :=
  match new, old with
  | [], _ => old
  | _ :: _, [] => new
  | r :: new', r' :: old' => overlay_row r r' :: overlay_rows new' old'
  end.

Definition overlay (new old : table) : table :=
  Table (overlay_row (columns new) (columns old))
        (overlay_rows (body new) (body old)).

(** ** A concrete runtime *)

(** A Unicode table with nothing beyond Latin-1: no character from 256
    on is alphanumeric, none is printable. *)
Definition latin1_only : N → bool := λ _, false.

(** An interpreter whose traceback shows the frame of the script. *)
Definition script_frame : exn → list str :=
  λ _, [py "  File convert_to_excel.py, line 59, in <module>";
        py "    convert_csv_to_excel()"].

(** An operating system that refuses to create a directory with no name
    or where something exists, and to write a file where a directory is. *)
Definition posix_refuses (files : gmap str node) (call : syscall) : option exn :=
  match call with
  | Mkdir p =>
      if bool_decide (p = []) then Some (FileNotFoundError p)
      else if bool_decide (is_Some (files !! p)) then Some (FileExistsError p)
      else None
  | OpenWrite p =>
      match files !! p with
      | Some Dir => Some (IsADirectoryError p)
      | _ => None
      end
  end.

(** A workbook library that takes every title. *)
Definition append_sheet (book : workbook) (title : str) (t : table)
  : workbook * option exn :=
  (book ++ [(title, t)], None).

(** A CSV writer that quotes nothing: fields between commas, a line per
    row, the empty field for a missing value. *)
Definition cell_text (c : cell) : str :=
  match c with
  | CStr s => s
  | CNum z => py (NilZero.string_of_int (Z.to_int z))
  | CNaN => []
  end.

Fixpoint csv_line (fields : list str) : str :=
  match fields with
  | [] => [10]
  | [f] => f ++ [10]
  | f :: fields' => f ++ [44] ++ csv_line fields'
  end.

Definition unquoted_csv (t : table) : str :=
  csv_line (columns t) ++ flat_map (λ r, csv_line (cell_text <$> r)) (body t).

(** A parser that reads one given table from whatever it is handed. *)
Definition parse_as (tbl : table) : content → exn + table := λ _, inr tbl.

(** ** SheetSplitter: [clean_filename] *)

(** Characters of the Latin-1 range (code points below 256) that Python's
    [str.isalnum] accepts: the ASCII digits and letters, the ordinal
    indicators, the superscript digits, the micro sign, the vulgar
    fractions, and the accented letters (all of U+00C0..U+00FF but the
    multiplication and the division sign). *)
Definition latin1_alnum (c : N) : bool :=
  ((48 <=? c) && (c <=? 57)) || ((65 <=? c) && (c <=? 90))
  || ((97 <=? c) && (c <=? 122))
  || (c =? 170) || (c =? 178) || (c =? 179) || (c =? 181)
  || (c =? 185) || (c =? 186) || ((188 <=? c) && (c <=? 190))
  || ((192 <=? c) && (c <=? 214)) || ((216 <=? c) && (c <=? 246))
  || ((248 <=? c) && (c <=? 255)).

(** Characters of the Latin-1 range that [str.isprintable] accepts: the
    ASCII characters from the space to the tilde, and U+00A1..U+00FF
    but the soft hyphen. *)
Definition latin1_printable (c : N) : bool :=
  ((32 <=? c) && (c <=? 126))
  || ((161 <=? c) && (c <=? 255) && negb (c =? 173)).

Definition backslash : N := 92.

(** A digit of a lower-case hexadecimal numeral, and the numeral of a
    given width. *)
Definition hex_digit (d : N) : N := if d <? 10 then 48 + d else 87 + d.

Fixpoint hex (width : nat) (c : N) : str :=
  match width with
  | O => []
  | S k => hex k (c / 16) ++ [hex_digit (c mod 16)]
  end.

(** The ASCII letters, digits and underscore: the characters the
    specification's wording of the sanitization keeps. *)
Definition ascii_word (c : N) : bool :=
  ((48 <=? c) && (c <=? 57)) || ((65 <=? c) && (c <=? 90))
  || ((97 <=? c) && (c <=? 122)) || (c =? 95).

Definition space : N := 32.
Definition underscore : N := 95.
Definition hyphen : N := 45.

(** The two paths fixed in [excel_to_csv.py]. *)
Definition GameData_xlsx : str := py "/Users/ig-macbookpro/Downloads/GameData.xlsx".

Definition CSV_folder : str :=
  py "/Users/ig-macbookpro/Documents/Personal/Starkiller/Starkiller Base Command/Assets/_Temp/CSV".

(** The sanitization in the specification's words, with letters and
    digits read as the ASCII ones: spaces become underscores, then every
    other character that is not an ASCII letter, digit or underscore
    goes (so that accented letters go too). *)
Definition sanitize_ascii (name : str) : str :=
  filter (λ c, ascii_word c = true)
         ((λ c, if c =? space then underscore else c) <$> name).

Definition e_acute : N := 233.

(** ** Sample inputs *)

(** A workbook with the sheets of the specification's scenarios. *)
Definition game_data : workbook := [
  (py "Main Data",
   Table [py "Id"; py "Name"] [[CNum 1; CStr (py "Tarkin")]; [CNum 2; CNaN]]);
  (py "NPC-List",
   Table [py "Npc"; py "Rank"] [[CStr (py "Veers"); CStr (py "")]]);
  (py "A B", Table [py "Key"] [[CStr (py "first")]]);
  (py "A_B", Table [py "Key"] [[CStr (py "second")]]);
  (py "---", Table [py "Note"] [[CNaN]])
].

Definition splitter_world : world :=
  World {[ GameData_xlsx := File (Book game_data) ]} [] [].

(** A catalog whose categories are met in the order "Ship System",
    "Core System". *)
Definition ship_core_catalog : table :=
  Table [py "File"; py "Category"]
        [[CStr (py "ShipGenerator.cs"); CStr (py "Ship System")];
         [CStr (py "GameManager.cs"); CStr (py "Core System")];
         [CStr (py "ShipEncounter.cs"); CStr (py "Ship System")]].

(** A catalog with a row that has no category. *)
Definition uncategorised_catalog : table :=
  Table [py "File"; py "Category"]
        [[CStr (py "Readme.txt"); CNaN];
         [CStr (py "GameManager.cs"); CStr (py "Core System")]].

(** The catalog of the specification's third scenario. *)
Definition three_category_catalog : table :=
  Table [py "File"; py "Category"]
        [[CStr (py "GameManager.cs"); CStr (py "Core System")];
         [CStr (py "ShipGenerator.cs"); CStr (py "Ship System")];
         [CStr (py "Bloom.cs"); CStr (py "Visual Effects")]].

(** A catalog without a category column. *)
Definition headless_catalog : table :=
  Table [py "File"; py "Kind"] [[CStr (py "GameManager.cs"); CStr (py "Core System")]].

(** The workbook of the specification's first scenario, and a world
    where it is the input; in [blocked_world] a directory sits where the
    file of the second sheet belongs. *)
Definition scenario_one : workbook := [
  (py "Main Data",
   Table [py "Id"; py "Name"] [[CNum 1; CStr (py "Tarkin")]; [CNum 2; CNaN]]);
  (py "NPC-List",
   Table [py "Npc"; py "Rank"] [[CStr (py "Veers"); CStr (py "")]])
].

Definition scenario_one_world : world :=
  World {[ py "GameData.xlsx" := File (Book scenario_one) ]} [] [].

Definition blocked_world : world :=
  World (<[ py "out/NPCList.csv" := Dir ]>
           {[ py "GameData.xlsx" := File (Book scenario_one) ]}) [] [].

(** A catalog with two categories that derive one title. *)
Definition core_catalog : table :=
  Table [py "File"; py "Category"]
        [[CStr (py "Boot.cs"); CStr (py "Core Files")];
         [CStr (py "GameManager.cs"); CStr (py "Core System")]].

(** A script directory that holds the catalog file. *)
Definition catalog_world : world :=
  World {[ py "Assets/file_catalog_updated.csv" := File (Text (py "catalog")) ]}
        [] [].

Definition a_day : str := py "2025-05-04".


Definition blank_catalog : table :=
  Table [py "File"; py "Category"] [[CStr (py "Readme.txt"); CNaN]].

Definition numbered_catalog : table :=
  Table [py "File"; py "Category"]
        [[CStr (py "b.cs"); CNum 2]; [CStr (py "a.cs"); CNum 1]].

Definition locked_world : world :=
  World (<[ py "Assets/Starkiller Base Command - File Catalog Updated.xlsx" := Dir ]>
           {[ py "Assets/file_catalog_updated.csv" := File (Text (py "catalog")) ]})
        [] [].


(** A catalog whose categories alternate, with a row that has none. *)
Definition mixed_catalog : table :=
  Table [py "File"; py "Category"]
        [[CStr (py "ShipGenerator.cs"); CStr (py "Ship System")];
         [CStr (py "Readme.txt"); CNaN];
         [CStr (py "GameManager.cs"); CStr (py "Core System")];
         [CStr (py "ShipEncounter.cs"); CStr (py "Ship System")];
         [CStr (py "Bloom.cs"); CStr (py "Visual Effects")];
         [CStr (py "SaveGame.cs"); CStr (py "Core System")]].

(** A parser that gives up on whatever it is handed. *)
Definition parse_fails : content → exn + table :=
  λ _, inl (ParserError (py "Error tokenizing data. C error: Expected 2 fields in line 3, saw 3")).

Section Scripts.

(** What the scripts take from the Python runtime, pandas and the
    operating system, and the repository does not define. *)

(** The Unicode character database beyond Latin-1: whether a code point
    from 256 on is alphanumeric ([str.isalnum]). *)
Variable unicode_alnum : N → bool.

(** The same database: whether a code point from 256 on is printable
    ([str.isprintable]). *)
Variable unicode_printable : N → bool.

(** The operating system's verdict on a request to create a directory or
    to open a file for writing, given the files there are: the error it
    answers with, if it refuses. *)
Variable os_refuses : gmap str node → syscall → option exn.

(** The text pandas' CSV writer produces for a table (UTF-8, comma
    separated, header row first). *)
Variable render_csv : table → str.

(** pandas' CSV parser: the table read from a file's content, or the
    error raised. *)
Variable parse_csv : content → exn + table.

(** The workbook library asked for a new sheet under a title and handed
    its cells: the book afterwards, and the error raised, if any (it
    rejects some titles, and may adjust others). *)
Variable create_sheet : workbook → str → table → workbook * option exn.

(** The lines the interpreter prints for the stack frames of an
    exception nobody caught, between the heading of the traceback and
    the line that names the exception. *)
Variable traceback_frames : exn → list str.

(** ** Texts of values and of exceptions *)

Definition isprintable (c : N) : bool :=
  if c <? 256 then latin1_printable c else unicode_printable c.

(** A character within [repr] of a [str] delimited by [q]: the
    delimiter and the backslash behind a backslash; tab, line feed and
    carriage return by their letters; any other character that is not
    printable by its code, in two, four or eight hexadecimal digits. *)
Definition repr_char (q c : N) : str :=
  if (c =? q) || (c =? backslash) then [backslash; c]
  else if c =? 9 then py "\t"
  else if c =? 10 then py "\n"
  else if c =? 13 then py "\r"
  else if isprintable c then [c]
  else if c <? 256 then py "\x" ++ hex 2 c
  else if c <? 65536 then py "\u" ++ hex 4 c
  else py "\U" ++ hex 8 c.

(** [repr(s)] of a [str]: between single quotes, or between double
    quotes when the text has a single quote and no double quote. *)
Definition repr (s : str) : str :=
  let q := if bool_decide (39 ∈ s) && negb (bool_decide (34 ∈ s))
           then 34 else 39 in
  [q] ++ flat_map (repr_char q) s ++ [q].

(** [str(e)] *)
Definition exn_str (e : exn) : str :=
  match e with
  | FileNotFoundError p => py "[Errno 2] No such file or directory: " ++ repr p
  | FileExistsError p => py "[Errno 17] File exists: " ++ repr p
  | IsADirectoryError p => py "[Errno 21] Is a directory: " ++ repr p
  | PermissionError p => py "[Errno 13] Permission denied: " ++ repr p
  | KeyError k => repr k
  | AttributeError msg => msg
  | ValueError msg => msg
  | IndexError msg => msg
  | ParserError msg => msg
  end.

(** The last line of a traceback: the class and, unless it is empty,
    the text of the exception. *)
Definition exception_line (e : exn) : str :=
  if bool_decide (exn_str e = []) then exn_qualname e
  else exn_qualname e ++ py ": " ++ exn_str e.

(** ** SheetSplitter: the sanitization *)

Definition isalnum (c : N) : bool :=
  if c <? 256 then latin1_alnum c else unicode_alnum c.

(** The class [\w] of a [str] pattern: alphanumeric or underscore. *)
Definition is_word (c : N) : bool := isalnum c || (c =? underscore).

(** The pattern [[^\w]]: one character that is not a word character. *)
Definition nonword (c : N) : bool := negb (is_word c).

(** [re.sub(r'[^\w]', '', s)]: every match of the pattern is replaced by
    the empty string, the other characters stay in place. *)
Definition re_sub_nonword (s : str) : str :=
  flat_map (λ c, if nonword c then [] else [c]) s.

(** [clean_filename(filename)] *)
Definition clean_filename (filename : str) : str :=
  let cleaned := str_replace (py " ") (py "_") filename in
  let cleaned := re_sub_nonword cleaned in
  cleaned.

(** ** SheetSplitter: [convert_excel_to_csv] *)

(** [os.path.exists(p)] *)
Definition path_exists (p : str) : M world bool :=
  λ w, (Ok (bool_decide (is_Some (fs w !! p))), w).

(** A call of the operating system acts on the file system and leaves
    the output streams alone. *)
Definition on_files {A} (call : M (gmap str node) A) : M world A :=
  λ w, let '(r, files) := call (fs w) in (r, World files (stdout w) (stderr w)).

Definition exists_in (p : str) : M (gmap str node) bool :=
  λ files, (Ok (bool_decide (is_Some (files !! p))), files).

(** [os.mkdir(p)] *)
Definition mkdir (p : str) : M (gmap str node) unit :=
  λ files, match os_refuses files (Mkdir p) with
           | Some e => (Raise e, files)
           | None => (Ok tt, <[p := Dir]> files)
           end.

(** The path [head/.] names the directory [head]: once that is there,
    so is the path. *)
Definition same_directory (name : str) : M (gmap str node) unit :=
  λ files, (Ok tt, <[name := Dir]> files).

(** The first two lines of [os.makedirs]:
    [head, tail = path.split(name)] and
    [if not tail: head, tail = path.split(head)]. *)
Definition makedirs_split (name : str) : str * str :=
  let '(head, tail) := path_split name in
  if bool_decide (tail = []) then path_split head else (head, tail).

(** [os.makedirs(name)] of the standard library: a missing parent is
    made first, in the same way, and a [FileExistsError] of that is
    passed over; then the directory itself is made, unless its last
    component is [.].  The parent is a shorter path, so the length of
    [name] bounds the depth of the recursion. *)
Fixpoint makedirs_from (depth : nat) (name : str) : M (gmap str node) unit :=
  let '(head, tail) := makedirs_split name in
  there <~ exists_in head ;;
  if bool_decide (head ≠ []) && bool_decide (tail ≠ []) && negb there then
    match depth with
    | O => mkdir name
    | S depth' =>
        try_except (makedirs_from depth' head)
          (λ e, match e with
                | FileExistsError _ => ret tt
                | _ => raise e
                end) ;;;
        if bool_decide (tail = py ".") then same_directory name
        else mkdir name
    end
  else mkdir name.

Definition makedirs (name : str) : M world unit :=
  on_files (makedirs_from (length name) name).

(** Open a file for reading: its content. *)
Definition open_read (p : str) : M world content :=
  λ w, match fs w !! p with
       | None => (Raise (FileNotFoundError p), w)
       | Some Dir => (Raise (IsADirectoryError p), w)
       | Some (File c) => (Ok c, w)
       end.

(** Create or overwrite a file. *)
Definition write_file (p : str) (c : content) : M world unit :=
  λ w, match os_refuses (fs w) (OpenWrite p) with
       | Some e => (Raise e, w)
       | None => (Ok tt, set_fs (insert p (File c)) w)
       end.

(** [pd.ExcelFile(p)] *)
Definition ExcelFile (p : str) : M world workbook :=
  c <~ open_read p ;;
  match c with
  | Book wb => ret wb
  | Text _ =>
      raise (ValueError (py "Excel file format cannot be determined, you must specify an engine manually."))
  end.

(** [pd.read_excel(excel, sheet_name=sheet)]: the first sheet with that
    title. *)
Definition read_excel (excel : workbook) (sheet : str) : M world DataFrame :=
  match list_find (λ x, x.1 = sheet) excel with
  | Some (_, (_, t)) => ret (frame_of_table t)
  | None => raise (ValueError (py "Worksheet named '" ++ sheet ++ py "' not found"))
  end.

(** [df.to_csv(path, index=False, encoding='utf-8')] *)
Definition to_csv (df : DataFrame) (path : str) : M world unit :=
  write_file path (Text (render_csv (table_of_frame df))).

Definition quote : N := 34.

(** The body of the loop over the sheets of [convert_excel_to_csv]. *)
Definition convert_sheet (excel : workbook) (output_folder sheet : str)
  : M world unit :=
  df <~ read_excel excel sheet ;;
  let df := fillna (CStr (py "")) df in
  let safe_sheet_name := clean_filename sheet in
  let csv_file := path_join output_folder (safe_sheet_name ++ py ".csv") in
  to_csv df csv_file ;;;
  print (py "Converted sheet " ++ [quote] ++ sheet ++ [quote]
         ++ py " to " ++ csv_file).

(** The body of the [try] of [convert_excel_to_csv]. *)
Definition convert_excel_to_csv_try (excel_file output_folder : str)
  : M world (bool * str) :=
  there <~ path_exists output_folder ;;
  (if negb there then makedirs output_folder else ret tt) ;;;
  excel <~ ExcelFile excel_file ;;
  let sheet_names := sheet_names excel in
  for_each sheet_names (convert_sheet excel output_folder) ;;;
  ret (true, py "Successfully converted " ++ str_of_nat (length sheet_names)
             ++ py " sheets to CSV").

(** [convert_excel_to_csv(excel_file, output_folder)] *)
Definition convert_excel_to_csv (excel_file output_folder : str)
  : M world (bool * str) :=
  try_except (convert_excel_to_csv_try excel_file output_folder)
    (λ e, ret (false, py "Error converting Excel to CSV: " ++ exn_str e)).

(** The traceback of an exception nobody caught: the heading, the
    lines of the stack frames, and the line that names the exception. *)
Definition traceback (e : exn) : list str :=
  py "Traceback (most recent call last):" :: traceback_frames e
  ++ [exception_line e].

(** A process ends with an exit status; an exception nobody caught ends
    it with status 1 after its traceback went to the standard error
    stream. *)
Definition run_process (script : M world N) (w : world) : N * world :=
  match script w with
  | (Ok status, w') => (status, w')
  | (Raise e, w') =>
      (1, World (fs w') (stdout w') (stderr w' ++ traceback e))
  end.

(** [sys.exit(status)] as the last statement of a script. *)
Definition sys_exit {S} (status : N) : M S N := ret status.

(** The [__main__] block of [excel_to_csv.py]. *)
Definition splitter_main : M world N :=
  let excel_file := GameData_xlsx in
  let output_folder := CSV_folder in
  r <~ convert_excel_to_csv excel_file output_folder ;;
  let '(success, message) := r in
  if success : bool then
    print message ;;;
    sys_exit 0
  else
    eprint message ;;;
    sys_exit 1.

(** ** CatalogMerger: [convert_csv_to_excel] *)

(** [pd.read_csv(p)] *)
Definition read_csv (p : str) : M world DataFrame :=
  c <~ open_read p ;;
  match parse_csv c with
  | inl e => raise e
  | inr t => ret (frame_of_table t)
  end.

(** [df.to_excel(writer, sheet_name=sheet_name, index=False)] on a
    writer in write mode: a title the book has names that sheet, whose
    cells are written over; any other title asks for a new sheet. *)
Definition to_excel (df : DataFrame) (sheet_name : str)
  : M (world * workbook) unit :=
  λ '(w, book),
    let t := table_of_frame df in
    match list_find (λ x, x.1 = sheet_name) book with
    | Some (i, (title, old)) =>
        (Ok tt, (w, <[i := (title, overlay t old)]> book))
    | None =>
        match create_sheet book sheet_name t with
        | (book', None) => (Ok tt, (w, book'))
        | (book', Some e) => (Raise e, (w, book'))
        end
    end.

(** [with pd.ExcelWriter(path, engine='openpyxl') as writer: block]: the
    file is opened for writing, the block fills the writer's book, and
    leaving the block, normally or by an exception, saves the book.  A
    book without a sheet cannot be saved. *)
Definition with_ExcelWriter {A} (path : str) (block : M (world * workbook) A)
  : M world A :=
  λ w, match os_refuses (fs w) (OpenWrite path) with
       | Some e => (Raise e, w)
       | None =>
           let w0 := set_fs (insert path (File (Text []))) w in
           let '(r, (w', book)) := block (w0, []) in
           match book with
           | [] => (Raise (IndexError (py "At least one sheet must be visible")), w')
           | _ :: _ => (r, set_fs (insert path (File (Book book))) w')
           end
       end.

(** The frame of the introduction sheet; [today] is
    [pd.Timestamp.now().strftime('%Y-%m-%d')]. *)
Definition intro_df (today : str) : DataFrame :=
  frame_of_table (Table [py "File Organization Strategy"] [
    [CStr (py "")];
    [CStr (py "When implementing new features or modifying existing functionality, refer to this catalog to understand which systems to modify.")];
    [CStr (py "")];
    [CStr (py "The catalog is organized by system categories:")];
    [CStr (py "- Core System: Central game infrastructure components")];
    [CStr (py "- Ship System: Ship generation and encounter handling")];
    [CStr (py "- Family System: Imperial family management")];
    [CStr (py "- Consequences System: Decision consequence tracking")];
    [CStr (py "- Daily Game Flow: Daily game cycle management")];
    [CStr (py "- Content Management: Media and game content")];
    [CStr (py "- Visual Effects: Visual enhancement components")];
    [CStr (py "")];
    [CStr (py "This catalog was updated on " ++ today ++ py ".")];
    [CStr (py "It includes newly added scripts and recent modifications.")]
  ]).

(** [category.replace('System', 'System Files')]: a method of text only. *)
Definition category_replace {S} (category : key) : M S str :=
  match category with
  | KStr s => ret (str_replace (py "System") (py "System Files") s)
  | KNum _ => raise (AttributeError (py "'int' object has no attribute 'replace'"))
  end.

(** The three renamings that follow the replacement. *)
Definition rename_special (sheet_name : str) : str :=
  let sheet_name :=
    if bool_decide (sheet_name = py "Core Files")
    then py "Core System Files" else sheet_name in
  let sheet_name :=
    if bool_decide (sheet_name = py "Visual Effects")
    then py "Visual Effects Files" else sheet_name in
  let sheet_name :=
    if bool_decide (sheet_name = py "Content Management")
    then py "Content Management Files" else sheet_name in
  sheet_name.

(** The body of the loop over [category_dfs.items()]. *)
Definition write_category (item : key * DataFrame) : M (world * workbook) unit :=
  let '(category, cat_df) := item in
  sheet_name <~ category_replace category ;;
  let sheet_name := rename_special sheet_name in
  to_excel cat_df sheet_name.

(** [convert_csv_to_excel()]; [script_dir] is
    [os.path.dirname(__file__)]. *)
Definition convert_csv_to_excel (script_dir today : str) : M world unit :=
  let csv_file := path_join script_dir (py "file_catalog_updated.csv") in
  let excel_file :=
    path_join script_dir (py "Starkiller Base Command - File Catalog Updated.xlsx") in
  df <~ read_csv csv_file ;;
  groups <~ groupby (py "Category") df ;;
  let category_dfs :=
    foldl (λ d g, dict_set g.1 (reset_index g.2) d) [] groups in
  with_ExcelWriter excel_file (
    to_excel (intro_df today) (py "Introduction") ;;;
    for_each category_dfs write_category) ;;;
  print (py "Excel file created at: " ++ excel_file).

(** The [__main__] block of [convert_to_excel.py]. *)
Definition merger_main (script_dir today : str) : M world N :=
  convert_csv_to_excel script_dir today ;;;
  ret 0.

(** ** What a run of SheetSplitter leaves *)

(** The path of the file written for a sheet. *)
Definition csv_path (output_folder sheet : str) : str :=
  path_join output_folder (clean_filename sheet ++ py ".csv").

(** The table handed to the CSV writer for a sheet. *)
Definition csv_table (t : table) : table :=
  table_of_frame (fillna (CStr (py "")) (frame_of_table t)).

(** The files once the output folder is there: as they were if it was
    there, and else as [os.makedirs] leaves them. *)
Definition folder_ready (output_folder : str) (files : gmap str node)
  : gmap str node :=
  if bool_decide (is_Some (files !! output_folder)) then files
  else (makedirs_from (length output_folder) output_folder files).2.

(** What making a directory with its parents may change: at a
    beginning of the path, a directory stands where nothing was. *)
Definition directories_made (name : str) (files files' : gmap str node) : Prop :=
  ∀ q, files' !! q = files !! q
       ∨ (q `prefix_of` name ∧ files !! q = None ∧ files' !! q = Some Dir).

(** The files after the sheets were written one after the other. *)
Definition sheets_written (output_folder : str) (sheets : workbook)
    (files : gmap str node) : gmap str node :=
  foldl (λ f x, <[csv_path output_folder x.1
                  := File (Text (render_csv (csv_table x.2)))]> f)
        files sheets.

Definition progress_line (output_folder sheet : str) : str :=
  py "Converted sheet " ++ [quote] ++ sheet ++ [quote]
  ++ py " to " ++ csv_path output_folder sheet.

Definition success_message (n : nat) : str :=
  py "Successfully converted " ++ str_of_nat n ++ py " sheets to CSV".

(** The operating system lets the output folder be created, with the
    parents it lacks, if it is not there. *)
Definition folder_accepted (output_folder : str) (files : gmap str node) : Prop :=
  files !! output_folder = None →
  (makedirs_from (length output_folder) output_folder files).1 = Ok tt.

(** The operating system lets every sheet's file be written when its
    turn comes. *)
Definition writes_accepted (output_folder : str) (wb : workbook)
    (files : gmap str node) : Prop :=
  ∀ k s t, wb !! k = Some (s, t) →
    os_refuses (sheets_written output_folder (take k wb) files)
               (OpenWrite (csv_path output_folder s)) = None.


(** ** What a run of CatalogMerger leaves *)

(** The two paths of [convert_csv_to_excel]. *)
Definition catalog_csv (script_dir : str) : str :=
  path_join script_dir (py "file_catalog_updated.csv").

Definition catalog_xlsx (script_dir : str) : str :=
  path_join script_dir (py "Starkiller Base Command - File Catalog Updated.xlsx").

(** The sheet title derived from a category. *)
Definition sheet_title (category : str) : str :=
  rename_special (str_replace (py "System") (py "System Files") category).

(** The group keys of a catalog whose category column is at position
    [i], and its text categories in the order of the groups. *)
Definition category_keys (tbl : table) (i : nat) : list key :=
  remove_dups (omap (λ r, key_of (cell_at i r)) (body tbl)).

Definition categories (tbl : table) (i : nat) : list str :=
  merge_sort str_le (omap str_of_key (category_keys tbl i)).

(** The rows of a category, in the catalog's order. *)
Definition category_rows (tbl : table) (i : nat) (category : str)
  : list (list cell) :=
  filter (λ r, cell_at i r = CStr category) (body tbl).

(** The book after a table was written under a title that is taken as
    it is. *)
Definition put_sheet (title : str) (t : table) (book : workbook) : workbook :=
  match list_find (λ x, x.1 = title) book with
  | Some (i, (title', old)) => <[i := (title', overlay t old)]> book
  | None => book ++ [(title, t)]
  end.

Definition intro_sheet (today : str) : str * table :=
  (py "Introduction", table_of_frame (intro_df today)).

Definition catalog_book (today : str) (tbl : table) (i : nat) : workbook :=
  foldl (λ book k, put_sheet (sheet_title k)
                             (Table (columns tbl) (category_rows tbl i k)) book)
        [intro_sheet today] (categories tbl i).

(** The workbook library takes these titles as they are: asked for a new
    sheet under one of them, in a book that has only sheets of them, it
    adds the sheet at the end. *)
Definition titles_accepted (titles : list str) : Prop :=
  ∀ (book : workbook) name t,
    name ∈ titles → name ∉ sheet_names book → sheet_names book ⊆ titles →
    create_sheet book name t = (book ++ [(name, t)], None).

(** The category column holds text or nothing. *)
Definition text_categories (tbl : table) (i : nat) : Prop :=
  Forall (λ r, ∀ z, cell_at i r ≠ CNum z) (body tbl).

(** The order of first appearance, in the specification's words: each
    value where it is first met. *)
Fixpoint first_seen (l : list str) : list str :=
  match l with
  | [] => []
  | x :: l' => x :: filter (λ y, y ≠ x) (first_seen l')
  end.

(** The text values of the category column, row by row. *)
Definition category_column (tbl : table) (i : nat) : list str :=
  omap (λ r, key_of (cell_at i r) ≫= str_of_key) (body tbl).

(** The sheet order the specification words: the introduction, then the
    categories as first met. *)
Definition first_seen_order (tbl : table) (i : nat) (book : workbook) : Prop :=
  sheet_names book
  = py "Introduction" :: (sheet_title <$> first_seen (category_column tbl i)).

(** A title that is the result of the replacement alone. *)
Definition by_replacement_alone (category : str) : Prop :=
  sheet_title category
  = str_replace (py "System") (py "System Files") category.

(** The data rows of the category sheets: all sheets but the first. *)
Definition category_sheet_rows (book : workbook) : list (list cell) :=
  concat ((λ sh, body sh.2) <$> tail book).

(** ** Properties of [clean_filename] *)

Definition space_to_underscore (c : N) : N :=
  if c =? space then underscore else c.

Lemma replace_one_character (a b : N) (s : str) :
  str_replace [a] [b] s = (λ c, if c =? a then b else c) <$> s.
Proof.
  unfold str_replace.
  induction s as [|c s IH]; [done|].
  cbn [replace_from startswith length Nat.pred fmap list_fmap].
  rewrite IH, (N.eqb_sym c a), andb_true_r.
  by destruct (a =? c).
Qed.

Lemma replace_space_underscore (s : str) :
  str_replace (py " ") (py "_") s = space_to_underscore <$> s.
Proof. apply (replace_one_character space underscore). Qed.

Lemma re_sub_nonword_filter (s : str) :
  re_sub_nonword s = filter (λ c, is_word c = true) s.
Proof.
  unfold re_sub_nonword, nonword.
  induction s as [|c s IH]; [done|].
  cbn [flat_map]. rewrite IH, filter_cons.
  by destruct (is_word c).
Qed.

Lemma clean_filename_filter (s : str) :
  clean_filename s = filter (λ c, is_word c = true) (space_to_underscore <$> s).
Proof.
  unfold clean_filename. by rewrite replace_space_underscore, re_sub_nonword_filter.
Qed.

Lemma clean_filename_word (s : str) :
  Forall (λ c, is_word c = true) (clean_filename s).
Proof.
  rewrite clean_filename_filter. apply Forall_forall.
  intros c Hc. by apply list_elem_of_filter in Hc as [Hc _].
Qed.

Lemma is_word_space : is_word space = false.
Proof. reflexivity. Qed.

Lemma is_word_slash : is_word slash = false.
Proof. reflexivity. Qed.

Lemma clean_filename_fixed (s : str) :
  Forall (λ c, is_word c = true) s → clean_filename s = s.
Proof.
  intros Hs. rewrite clean_filename_filter.
  induction Hs as [|c s Hc Hs IH]; [done|].
  rewrite fmap_cons, filter_cons.
  assert (space_to_underscore c = c) as ->.
  { unfold space_to_underscore. destruct (c =? space) eqn:E; [|done].
    apply N.eqb_eq in E. subst c. by rewrite is_word_space in Hc. }
  rewrite decide_True by done. by rewrite IH.
Qed.

Lemma ascii_is_word (c : N) : (c < 128) → is_word c = ascii_word c.
Proof.
  intros Hc. unfold is_word, isalnum, latin1_alnum, ascii_word, underscore.
  assert ((c <? 256) = true) as -> by (apply N.ltb_lt; lia).
  assert (∀ n, 128 ≤ n → (c =? n) = false) as Hne
    by (intros n Hn; apply N.eqb_neq; lia).
  assert (∀ n, 128 ≤ n → (n <=? c) = false) as Hgt
    by (intros n Hn; apply N.leb_gt; lia).
  rewrite (Hne 170), (Hne 178), (Hne 179), (Hne 181), (Hne 185), (Hne 186),
    (Hgt 188), (Hgt 192), (Hgt 216), (Hgt 248) by lia.
  simpl. by rewrite !orb_false_r.
Qed.

Lemma accented_is_word (c : N) :
  192 ≤ c ≤ 255 → c ≠ 215 → c ≠ 247 → is_word c = true.
Proof.
  intros [H1 H2] H3 H4. unfold is_word, isalnum, latin1_alnum.
  assert ((c <? 256) = true) as -> by (apply N.ltb_lt; lia).
  assert (c ≤ 214 ∨ 216 ≤ c ≤ 246 ∨ 248 ≤ c) as [H|[[H H']|H]] by lia.
  - assert ((192 <=? c) = true) as -> by (apply N.leb_le; lia).
    assert ((c <=? 214) = true) as -> by (apply N.leb_le; lia).
    simpl. by rewrite !orb_true_r.
  - assert ((216 <=? c) = true) as -> by (apply N.leb_le; lia).
    assert ((c <=? 246) = true) as -> by (apply N.leb_le; lia).
    simpl. by rewrite !orb_true_r.
  - assert ((248 <=? c) = true) as -> by (apply N.leb_le; lia).
    assert ((c <=? 255) = true) as -> by (apply N.leb_le; lia).
    simpl. by rewrite !orb_true_r.
Qed.

Lemma beyond_latin1_is_word (c : N) : 256 ≤ c → is_word c = unicode_alnum c.
Proof.
  intros Hc. unfold is_word, isalnum, underscore.
  assert ((c <? 256) = false) as -> by (apply N.ltb_ge; lia).
  assert ((c =? 95) = false) as -> by (apply N.eqb_neq; lia).
  apply orb_false_r.
Qed.

(** C6 (as amended): [clean_filename] turns every space into an
    underscore and then keeps exactly the word characters of Python's
    [\w], in their order.  Among the ASCII characters these are the
    letters, the digits and the underscore, so a hyphen is deleted
    ("NPC-List" gives "NPCList") and a space ends as an underscore.  The
    letters of Latin-1 with an accent, U+00C0 to U+00FF without the
    multiplication and the division sign, are word characters and are
    kept.  Beyond Latin-1 a character is kept exactly when the Unicode
    database counts it alphanumeric. *)
Theorem clean_filename_keeps_word_characters (s : str) :
  clean_filename s
  = filter (λ c, is_word c = true)
           ((λ c, if c =? space then underscore else c) <$> s)
  ∧ (∀ c, c < 128 → is_word c = ascii_word c)
  ∧ is_word hyphen = false
  ∧ (∀ c, 192 ≤ c ≤ 255 → c ≠ 215 → c ≠ 247 → is_word c = true)
  ∧ (∀ c, 256 ≤ c → is_word c = unicode_alnum c)
  ∧ clean_filename (py "NPC-List") = py "NPCList"
  ∧ clean_filename (py "Main Data") = py "Main_Data".
Proof.
  split; [apply clean_filename_filter|].
  split; [apply ascii_is_word|].
  split; [reflexivity|].
  split; [apply accented_is_word|].
  split; [apply beyond_latin1_is_word|].
  split; reflexivity.
Qed.

(** C7: sanitizing a sanitized name changes nothing. *)
Theorem clean_filename_idempotent (s : str) :
  clean_filename (clean_filename s) = clean_filename s.
Proof. apply clean_filename_fixed, clean_filename_word. Qed.

(** ** Runs of [convert_excel_to_csv] *)

Lemma bind_Ok {S A B} (m : M S A) (k : A → M S B) s a s' :
  m s = (Ok a, s') → bind m k s = k a s'.
Proof. unfold bind. by intros ->. Qed.

Lemma bind_Raise {S A B} (m : M S A) (k : A → M S B) s e s' :
  m s = (Raise e, s') → bind m k s = (Raise e, s').
Proof. unfold bind. by intros ->. Qed.

Lemma world_eta (w : world) : World (fs w) (stdout w) (stderr w) = w.
Proof. by destruct w. Qed.

(** In a workbook whose titles differ, a title finds its own sheet. *)
Lemma list_find_title (wb : workbook) (i : nat) (s : str) (t : table) :
  NoDup (sheet_names wb) → wb !! i = Some (s, t) →
  list_find (λ x, x.1 = s) wb = Some (i, (s, t)).
Proof.
  intros Hnd Hi. apply list_find_Some. split; [done|]. split; [done|].
  intros j [s' t'] Hj Hlt Heq. simpl in Heq. subst s'.
  assert (j = i); [|lia].
  apply (NoDup_lookup (sheet_names wb) j i s); [done| |];
    unfold sheet_names; rewrite list_lookup_fmap.
  - by rewrite Hj.
  - by rewrite Hi.
Qed.

Lemma range_index_values (rows : list (list cell)) :
  (range_index rows).*2 = rows.
Proof.
  unfold range_index. rewrite fmap_imap.
  rewrite (imap_ext _ (const id)) by done.
  rewrite imap_const. apply list_fmap_id.
Qed.


Lemma sheets_written_snoc folder (sheets : workbook) s t files :
  sheets_written folder (sheets ++ [(s, t)]) files
  = <[csv_path folder s := File (Text (render_csv (csv_table t)))]>
      (sheets_written folder sheets files).
Proof. unfold sheets_written. by rewrite foldl_snoc. Qed.

(** One turn of the loop: the sheet is read, and its file is written and
    reported, or the operating system refuses the write and its error
    is raised with nothing changed. *)
Lemma convert_sheet_accepted folder (excel : workbook) k s t w :
  NoDup (sheet_names excel) → excel !! k = Some (s, t) →
  os_refuses (fs w) (OpenWrite (csv_path folder s)) = None →
  convert_sheet excel folder s w
  = (Ok tt, World (<[csv_path folder s := File (Text (render_csv (csv_table t)))]>
                     (fs w))
                  (stdout w ++ [progress_line folder s]) (stderr w)).
Proof.
  intros Hnd Hk Hos. unfold convert_sheet, read_excel.
  rewrite (list_find_title _ _ _ _ Hnd Hk).
  erewrite bind_Ok by reflexivity. cbv zeta.
  unfold to_csv, write_file. fold (csv_path folder s).
  erewrite bind_Ok by (rewrite Hos; reflexivity). reflexivity.
Qed.

Lemma convert_sheet_refused folder (excel : workbook) k s t w e :
  NoDup (sheet_names excel) → excel !! k = Some (s, t) →
  os_refuses (fs w) (OpenWrite (csv_path folder s)) = Some e →
  convert_sheet excel folder s w = (Raise e, w).
Proof.
  intros Hnd Hk Hos. unfold convert_sheet, read_excel.
  rewrite (list_find_title _ _ _ _ Hnd Hk).
  erewrite bind_Ok by reflexivity. cbv zeta.
  unfold to_csv, write_file. fold (csv_path folder s).
  apply bind_Raise. by rewrite Hos.
Qed.

(** The loop over a stretch of the sheets, when the operating system
    accepts their writes: each sheet is written in turn and reported. *)
Lemma for_each_sheet_ok folder (excel done mid rest : workbook) files w :
  excel = done ++ mid ++ rest →
  NoDup (sheet_names excel) →
  writes_accepted folder (done ++ mid) files →
  fs w = sheets_written folder done files →
  for_each (sheet_names mid) (convert_sheet excel folder) w
  = (Ok tt, World (sheets_written folder (done ++ mid) files)
                  (stdout w ++ (progress_line folder <$> sheet_names mid))
                  (stderr w)).
Proof.
  intros Hex Hnd. revert done w Hex.
  induction mid as [|[s t] mid IH]; intros done w Hex Hacc Hfs.
  - rewrite app_nil_r. simpl.
    unfold ret. rewrite <- Hfs, app_nil_r. by rewrite world_eta.
  - assert (excel !! length done = Some (s, t)) as Hk.
    { subst excel. rewrite <- app_comm_cons. by rewrite list_lookup_middle. }
    cbn [sheet_names fmap list_fmap for_each fst].
    erewrite bind_Ok; cycle 1.
    { apply (convert_sheet_accepted _ _ (length done) _ t); [done|done|].
      rewrite Hfs. rewrite <- (take_app_length done ((s, t) :: mid)) at 1.
      apply (Hacc (length done) s t). by rewrite list_lookup_middle. }
    replace (done ++ (s, t) :: mid) with ((done ++ [(s, t)]) ++ mid)
      in * by (by rewrite <- app_assoc).
    rewrite (IH (done ++ [(s, t)])).
    + f_equal. simpl. f_equal. rewrite <- app_assoc. reflexivity.
    + by rewrite <- !app_assoc in *.
    + done.
    + simpl. by rewrite sheets_written_snoc, Hfs.
Qed.

Lemma for_each_app {S A} (xs ys : list A) (body : A → M S unit) (s : S) :
  for_each (xs ++ ys) body s = (for_each xs body ;;; for_each ys body) s.
Proof.
  revert s. induction xs as [|x xs IH]; intros s; [done|].
  cbn [app for_each]. unfold bind in *.
  destruct (body x s) as [[[]|e] s']; [apply IH|done].
Qed.

(** ** The directories [os.makedirs] makes *)

Lemma split_last_slash_app (p : str) :
  (split_last_slash p).1 ++ (split_last_slash p).2 = p.
Proof.
  induction p as [|c p IH]; [done|]. cbn [split_last_slash].
  destruct (split_last_slash p) as [[|x h] t]; simpl in *.
  - destruct (c =? slash); simpl; by rewrite IH.
  - by rewrite IH.
Qed.

Lemma rstrip_slash_prefix (s : str) : rstrip_slash s `prefix_of` s.
Proof.
  induction s as [|c s IH]; [done|]. cbn [rstrip_slash].
  destruct (rstrip_slash s) as [|x r].
  - destruct (c =? slash); [apply prefix_nil|apply prefix_cons, prefix_nil].
  - by apply prefix_cons.
Qed.

Lemma path_split_head (p head tail : str) :
  path_split p = (head, tail) →
  head `prefix_of` p ∧ (length head + length tail ≤ length p)%nat.
Proof.
  unfold path_split. pose proof (split_last_slash_app p) as Happ.
  destruct (split_last_slash p) as [h t]. simpl in Happ.
  intros [= <- <-].
  assert ((if forallb (λ c, c =? slash) h then h else rstrip_slash h)
          `prefix_of` h) as Hpre.
  { destruct (forallb _ h); [done|apply rstrip_slash_prefix]. }
  split.
  - rewrite <- Happ. by apply prefix_app_r.
  - apply prefix_length in Hpre. rewrite <- Happ, length_app. lia.
Qed.

(** The parent [os.makedirs] turns to is a beginning of the path, and a
    shorter path whenever a last component is split off. *)
Lemma makedirs_split_head (name head tail : str) :
  makedirs_split name = (head, tail) →
  head `prefix_of` name ∧ (tail ≠ [] → (length head < length name)%nat).
Proof.
  unfold makedirs_split.
  destruct (path_split name) as [h1 t1] eqn:H1.
  apply path_split_head in H1 as [Hp1 Hl1].
  case_bool_decide as Ht1.
  - intros H2. apply path_split_head in H2 as [Hp2 Hl2]. split.
    + by etrans.
    + intros Ht. destruct tail; [done|]. simpl in Hl2. lia.
  - intros [= <- <-]. split; [done|].
    intros _. destruct t1; [done|]. simpl in Hl1. lia.
Qed.

Lemma directories_made_refl name files : directories_made name files files.
Proof. intros q. by left. Qed.

Lemma directories_made_trans head name f0 f1 f2 :
  head `prefix_of` name →
  directories_made head f0 f1 → directories_made name f1 f2 →
  directories_made name f0 f2.
Proof.
  intros Hpre H1 H2 q.
  destruct (H2 q) as [Heq|(Hq & Hnone & Hdir)].
  - rewrite Heq. destruct (H1 q) as [?|(Hq & ? & ?)]; [by left|].
    right. split; [by etrans|done].
  - right. split; [done|]. split; [|done].
    destruct (H1 q) as [Heq|(_ & _ & Hdir1)]; congruence.
Qed.

Lemma mkdir_made name files r files' :
  files !! name = None → mkdir name files = (r, files') →
  directories_made name files files'.
Proof.
  intros Hnone. unfold mkdir.
  destruct (os_refuses files (Mkdir name)); intros [= <- <-].
  - apply directories_made_refl.
  - intros q. destruct (decide (q = name)) as [->|Hne].
    + right. by rewrite lookup_insert_eq.
    + left. by rewrite lookup_insert_ne.
Qed.

Lemma same_directory_made name files r files' :
  files !! name = None → same_directory name files = (r, files') →
  directories_made name files files'.
Proof.
  intros Hnone [= <- <-] q. destruct (decide (q = name)) as [->|Hne].
  - right. by rewrite lookup_insert_eq.
  - left. by rewrite lookup_insert_ne.
Qed.

(** [os.makedirs] changes the file system at beginnings of the path
    only, and there it makes a directory where nothing was. *)
Lemma makedirs_from_made depth name files r files' :
  files !! name = None →
  makedirs_from depth name files = (r, files') →
  directories_made name files files'.
Proof.
  revert name files r files'.
  induction depth as [|depth IH]; intros name files r files' Hnone;
    cbn [makedirs_from];
    destruct (makedirs_split name) as [head tail] eqn:Hsplit;
    apply makedirs_split_head in Hsplit as [Hpre Hlen];
    unfold bind at 1, exists_in;
    destruct (bool_decide (head ≠ []) && bool_decide (tail ≠ [])
              && negb (bool_decide (is_Some (files !! head)))) eqn:Hcond;
    try apply (mkdir_made _ _ _ _ Hnone).
  apply andb_true_iff in Hcond as [Hcond Hthere].
  apply andb_true_iff in Hcond as [_ Htail].
  apply bool_decide_eq_true in Htail. specialize (Hlen Htail).
  apply negb_true_iff, bool_decide_eq_false in Hthere.
  apply eq_None_not_Some in Hthere.
  unfold bind, try_except.
  destruct (makedirs_from depth head files) as [[[]|e] f1] eqn:Hrec;
    (apply IH in Hrec; [|done]).
  - assert (f1 !! name = None) as Hnone1.
    { destruct (Hrec name) as [->|(Hq & _)]; [done|].
      apply prefix_length in Hq. lia. }
    intros Hlast. apply (directories_made_trans head name files f1); [done..|].
    case_bool_decide.
    + by apply (same_directory_made _ _ r).
    + by apply (mkdir_made _ _ r).
  - assert (f1 !! name = None) as Hnone1.
    { destruct (Hrec name) as [->|(Hq & _)]; [done|].
      apply prefix_length in Hq. lia. }
    assert (directories_made name files f1) as Hup.
    { apply (directories_made_trans head name files f1 f1); [done..|].
      apply directories_made_refl. }
    destruct e; unfold ret, raise; try (by intros [= <- <-]).
    intros Hlast. apply (directories_made_trans head name files f1); [done..|].
    case_bool_decide.
    + by apply (same_directory_made _ _ r).
    + by apply (mkdir_made _ _ r).
Qed.

(** When [os.makedirs] returns, the path is there. *)
Lemma makedirs_from_there depth name files files' :
  makedirs_from depth name files = (Ok tt, files') →
  files' !! name = Some Dir.
Proof.
  assert (∀ f, mkdir name f = (Ok tt, files') → files' !! name = Some Dir)
    as Hmk.
  { intros f. unfold mkdir. destruct (os_refuses f (Mkdir name)); [done|].
    intros [= <-]. by rewrite lookup_insert_eq. }
  destruct depth as [|depth]; cbn [makedirs_from];
    destruct (makedirs_split name) as [head tail];
    unfold bind at 1, exists_in;
    destruct (bool_decide (head ≠ []) && bool_decide (tail ≠ [])
              && negb (bool_decide (is_Some (files !! head))));
    try apply Hmk.
  unfold bind.
  destruct (try_except _ _ files) as [[[]|e] f1]; [|done].
  case_bool_decide; [|apply Hmk].
  intros [= <-]. by rewrite lookup_insert_eq.
Qed.

(** The length of the path is depth enough: more changes nothing. *)
Lemma makedirs_depth_enough (n m : nat) (name : str) files :
  (length name ≤ n)%nat → (length name ≤ m)%nat →
  makedirs_from n name files = makedirs_from m name files.
Proof.
  revert m name files.
  induction n as [|n IH]; intros [|m] name files Hn Hm;
    try (destruct name; [reflexivity|simpl in *; lia]).
  cbn [makedirs_from].
  destruct (makedirs_split name) as [head tail] eqn:Hsplit.
  apply makedirs_split_head in Hsplit as [_ Hlen].
  unfold bind at 1 3, exists_in.
  destruct (bool_decide (head ≠ []) && bool_decide (tail ≠ [])
            && negb (bool_decide (is_Some (files !! head)))) eqn:Hcond;
    [|done].
  apply andb_true_iff in Hcond as [Hcond _].
  apply andb_true_iff in Hcond as [_ Htail].
  apply bool_decide_eq_true in Htail. specialize (Hlen Htail).
  unfold bind, try_except. rewrite (IH m head files) by lia. done.
Qed.

Lemma folder_ready_made folder files :
  directories_made folder files (folder_ready folder files).
Proof.
  unfold folder_ready. case_bool_decide as Hex; [apply directories_made_refl|].
  apply eq_None_not_Some in Hex.
  destruct (makedirs_from (length folder) folder files) as [r f] eqn:Hrun.
  by apply (makedirs_from_made (length folder) _ _ r).
Qed.

(** Making the output folder removes and overwrites nothing. *)
Lemma folder_ready_keeps folder files (p : str) (x : node) :
  files !! p = Some x → folder_ready folder files !! p = Some x.
Proof.
  intros Hp. destruct (folder_ready_made folder files p) as [->|(_ & ? & _)];
    congruence.
Qed.


Lemma folder_ready_there folder files :
  folder_accepted folder files → is_Some (folder_ready folder files !! folder).
Proof.
  intros Hdir. unfold folder_ready. case_bool_decide as Hex; [done|].
  apply eq_None_not_Some in Hex. specialize (Hdir Hex).
  destruct (makedirs_from (length folder) folder files) as [[[]|e] f] eqn:Hrun;
    [|done].
  apply makedirs_from_there in Hrun. simpl. by rewrite Hrun.
Qed.

Lemma folder_ready_again folder files :
  folder_accepted folder files →
  folder_ready folder (folder_ready folder files) = folder_ready folder files.
Proof.
  intros Hdir. apply folder_ready_there in Hdir.
  unfold folder_ready at 1. by rewrite bool_decide_eq_true_2.
Qed.

(** The script's two lines on the output folder, when the operating
    system lets it be made. *)
Lemma makedirs_ready folder w :
  folder_accepted folder (fs w) →
  (if negb (bool_decide (is_Some (fs w !! folder)))
   then makedirs folder else ret tt) w
  = (Ok tt, World (folder_ready folder (fs w)) (stdout w) (stderr w)).
Proof.
  intros Hdir. unfold folder_ready. case_bool_decide as Hex; simpl.
  - unfold ret. by rewrite world_eta.
  - apply eq_None_not_Some in Hex. specialize (Hdir Hex).
    unfold makedirs, on_files.
    destruct (makedirs_from (length folder) folder (fs w)) as [r f].
    simpl in *. by subst r.
Qed.


(** Where the folder has no missing parent, the verdict on the folder
    itself decides. *)
Lemma folder_accepted_leaf folder files :
  (makedirs_split folder).1 = [] ∨ is_Some (files !! (makedirs_split folder).1) →
  os_refuses files (Mkdir folder) = None →
  folder_accepted folder files.
Proof.
  intros Hparent Hos _.
  assert (mkdir folder files = (Ok tt, <[folder := Dir]> files)) as Hmk
    by (unfold mkdir; by rewrite Hos).
  destruct (length folder) as [|depth]; cbn [makedirs_from];
    destruct (makedirs_split folder) as [head tail];
    unfold bind at 1, exists_in;
    destruct (bool_decide (head ≠ []) && bool_decide (tail ≠ [])
              && negb (bool_decide (is_Some (files !! head)))) eqn:Hcond;
    try (by rewrite Hmk).
  apply andb_true_iff in Hcond as [Hcond Hthere].
  apply andb_true_iff in Hcond as [Hhead _].
  apply bool_decide_eq_true in Hhead.
  apply negb_true_iff, bool_decide_eq_false in Hthere.
  simpl in Hparent. by destruct Hparent.
Qed.

(** The start of a run that finds the workbook: the output folder is
    made sure of, the workbook is opened, and the loop over its sheets
    begins. *)
Lemma convert_excel_to_csv_try_opens excel_file folder (wb : workbook) w :
  fs w !! excel_file = Some (File (Book wb)) →
  folder_accepted folder (fs w) →
  convert_excel_to_csv_try excel_file folder w
  = (for_each (sheet_names wb) (convert_sheet wb folder) ;;;
     ret (true, success_message (length wb)))
      (World (folder_ready folder (fs w)) (stdout w) (stderr w)).
Proof.
  intros Hbook Hdir.
  unfold convert_excel_to_csv_try, path_exists.
  erewrite bind_Ok by reflexivity.
  set (w1 := World (folder_ready folder (fs w)) (stdout w) (stderr w)).
  assert ((if negb (bool_decide (is_Some (fs w !! folder)))
           then makedirs folder else ret tt) w = (Ok tt, w1)) as Hmk
    by (by apply makedirs_ready).
  erewrite bind_Ok by exact Hmk.
  assert (fs w1 !! excel_file = Some (File (Book wb))) as Hbook1
    by (by apply folder_ready_keeps).
  unfold ExcelFile, open_read.
  erewrite bind_Ok; cycle 1.
  { erewrite bind_Ok by (rewrite Hbook1; reflexivity). reflexivity. }
  cbv zeta. unfold success_message, sheet_names. by rewrite length_fmap.
Qed.

(** A run in which the workbook is read and the operating system
    accepts the folder and every write. *)
Lemma convert_excel_to_csv_try_ok excel_file folder (wb : workbook) w :
  fs w !! excel_file = Some (File (Book wb)) →
  NoDup (sheet_names wb) →
  folder_accepted folder (fs w) →
  writes_accepted folder wb (folder_ready folder (fs w)) →
  convert_excel_to_csv_try excel_file folder w
  = (Ok (true, success_message (length wb)),
     World (sheets_written folder wb (folder_ready folder (fs w)))
           (stdout w ++ (progress_line folder <$> sheet_names wb))
           (stderr w)).
Proof.
  intros Hbook Hnd Hdir Hacc.
  rewrite (convert_excel_to_csv_try_opens _ _ wb) by done.
  erewrite bind_Ok; [reflexivity|].
  apply (for_each_sheet_ok folder wb [] wb [] _
           (World (folder_ready folder (fs w)) (stdout w) (stderr w)));
    rewrite ?app_nil_r; done.
Qed.

(** A run in which the operating system refuses the write of a sheet,
    having accepted the folder and the writes before it. *)
Lemma convert_excel_to_csv_try_refused excel_file folder (wb : workbook) w
    k s t e :
  fs w !! excel_file = Some (File (Book wb)) →
  NoDup (sheet_names wb) →
  folder_accepted folder (fs w) →
  wb !! k = Some (s, t) →
  writes_accepted folder (take k wb) (folder_ready folder (fs w)) →
  os_refuses (sheets_written folder (take k wb) (folder_ready folder (fs w)))
             (OpenWrite (csv_path folder s)) = Some e →
  convert_excel_to_csv_try excel_file folder w
  = (Raise e,
     World (sheets_written folder (take k wb) (folder_ready folder (fs w)))
           (stdout w ++ (progress_line folder <$> sheet_names (take k wb)))
           (stderr w)).
Proof.
  intros Hbook Hnd Hdir Hk Hacc Hos.
  rewrite (convert_excel_to_csv_try_opens _ _ wb) by done.
  apply bind_Raise.
  rewrite <- (take_drop_middle wb k (s, t) Hk) at 1.
  unfold sheet_names at 1. rewrite fmap_app, for_each_app.
  erewrite bind_Ok; cycle 1.
  { apply (for_each_sheet_ok folder wb [] (take k wb)
             ((s, t) :: drop (S k) wb) (folder_ready folder (fs w))).
    - by rewrite app_nil_l, take_drop_middle.
    - done.
    - done.
    - done. }
  cbn [fmap list_fmap for_each fst]. apply bind_Raise.
  by apply (convert_sheet_refused _ _ k _ t).
Qed.

Lemma startswith_slash_stem (s : str) :
  startswith [slash] (clean_filename s ++ py ".csv") = false.
Proof.
  pose proof (clean_filename_word s) as Hw.
  destruct (clean_filename s) as [|c stem]; [reflexivity|].
  apply Forall_cons in Hw as [Hc _].
  change (startswith [slash] ((c :: stem) ++ py ".csv"))
    with ((slash =? c) && true).
  destruct (N.eqb_spec slash c) as [<-|]; [|done].
  by rewrite is_word_slash in Hc.
Qed.

(** Two sheets are written to the same path exactly when their names
    have the same sanitized form. *)
Lemma csv_path_inj folder (s s' : str) :
  csv_path folder s = csv_path folder s' ↔ clean_filename s = clean_filename s'.
Proof.
  unfold csv_path, path_join. rewrite !startswith_slash_stem.
  split; [|by intros ->].
  destruct (bool_decide (folder = []) || ends_with_slash folder);
    intros H; repeat apply app_inv_head in H; by apply app_inv_tail in H.
Qed.

Lemma sheets_written_other folder (sheets : workbook) files (p : str) :
  (∀ x, x ∈ sheets → csv_path folder x.1 ≠ p) →
  sheets_written folder sheets files !! p = files !! p.
Proof.
  unfold sheets_written. revert files.
  induction sheets as [|[s t] sheets IH]; intros files Hp; [done|].
  cbn [foldl]. rewrite IH by (intros x Hx; apply Hp; by right).
  rewrite lookup_insert_ne; [done|]. apply (Hp (s, t)). by left.
Qed.

(** The file of a sheet holds that sheet's table unless a later sheet
    was written to the same path. *)
Lemma sheets_written_last folder (pre post : workbook) s t files :
  (∀ x, x ∈ post → csv_path folder x.1 ≠ csv_path folder s) →
  sheets_written folder (pre ++ (s, t) :: post) files !! csv_path folder s
  = Some (File (Text (render_csv (csv_table t)))).
Proof.
  intros Hpost. unfold sheets_written. rewrite foldl_app. cbn [foldl].
  match goal with |- foldl ?f ?a post !! _ = _ =>
    change (foldl f a post) with (sheets_written folder post a) end.
  rewrite sheets_written_other by done.
  by rewrite lookup_insert_eq.
Qed.



Lemma convert_excel_to_csv_ok excel_file folder (wb : workbook) w :
  fs w !! excel_file = Some (File (Book wb)) →
  NoDup (sheet_names wb) →
  folder_accepted folder (fs w) →
  writes_accepted folder wb (folder_ready folder (fs w)) →
  convert_excel_to_csv excel_file folder w
  = (Ok (true, success_message (length wb)),
     World (sheets_written folder wb (folder_ready folder (fs w)))
           (stdout w ++ (progress_line folder <$> sheet_names wb))
           (stderr w)).
Proof.
  intros. unfold convert_excel_to_csv, try_except.
  by erewrite convert_excel_to_csv_try_ok.
Qed.

(** The file at a sheet's path holds the table of the last sheet
    written there. *)
Lemma sheets_written_lookup folder (wb : workbook) files k s t :
  wb !! k = Some (s, t) →
  (∀ k' s' t', (k < k')%nat → wb !! k' = Some (s', t') →
     clean_filename s' ≠ clean_filename s) →
  sheets_written folder wb files !! csv_path folder s
  = Some (File (Text (render_csv (csv_table t)))).
Proof.
  intros Hk Hlast.
  rewrite <- (take_drop_middle wb k (s, t) Hk).
  apply sheets_written_last.
  intros [s' t'] Hx Hpath. apply list_elem_of_lookup in Hx as [n Hn].
  rewrite lookup_drop in Hn.
  apply (Hlast (S k + n)%nat s' t'); [lia|done|].
  by apply (csv_path_inj folder).
Qed.






(** C8: when two sheets of the workbook have the same sanitized name and
    no later sheet has it too, the run succeeds and reports every sheet
    of the workbook, both sheets are written to one and the same path,
    and the file there holds the table of the later sheet. *)
Theorem later_sheet_overwrites_earlier
    (excel_file output_folder : str) (wb : workbook) (w : world)
    (i j : nat) (s1 s2 : str) (t1 t2 : table) :
  fs w !! excel_file = Some (File (Book wb)) →
  NoDup (sheet_names wb) →
  folder_accepted output_folder (fs w) →
  writes_accepted output_folder wb (folder_ready output_folder (fs w)) →
  wb !! i = Some (s1, t1) → wb !! j = Some (s2, t2) → (i < j)%nat →
  clean_filename s1 = clean_filename s2 →
  (∀ k s t, (j < k)%nat → wb !! k = Some (s, t) →
     clean_filename s ≠ clean_filename s2) →
  ∃ w',
    convert_excel_to_csv excel_file output_folder w
    = (Ok (true, py "Successfully converted " ++ str_of_nat (length wb)
                 ++ py " sheets to CSV"), w')
    ∧ s1 ≠ s2
    ∧ csv_path output_folder s1 = csv_path output_folder s2
    ∧ fs w' !! csv_path output_folder s2
      = Some (File (Text (render_csv (csv_table t2)))).
Proof.
  intros Hbook Hnd Hdir Hacc Hi Hj Hlt Hclean Hlast.
  eexists. split; [by apply convert_excel_to_csv_ok|].
  split.
  { intros ->. assert (i = j); [|lia].
    apply (NoDup_lookup (sheet_names wb) i j s2); [done| |];
      unfold sheet_names; rewrite list_lookup_fmap.
    - by rewrite Hi.
    - by rewrite Hj. }
  split; [by apply csv_path_inj|].
  simpl. by apply (sheets_written_lookup _ _ _ j).
Qed.


Lemma clean_filename_symbols (s : str) :
  Forall (λ c, c ≠ space ∧ is_word c = false) s → clean_filename s = [].
Proof.
  intros Hs. rewrite clean_filename_filter.
  induction Hs as [|c s [Hsp Hc] Hs IH]; [done|].
  rewrite fmap_cons, filter_cons.
  assert (space_to_underscore c = c) as ->.
  { unfold space_to_underscore.
    destruct (N.eqb_spec c space); [done|done]. }
  rewrite decide_False; [done|]. by rewrite Hc.
Qed.

(** C10: a sheet whose name has no word character and no space (such as
    "---") has the empty sanitized name; its table is written to the
    file named ".csv" in the output folder, the run succeeds and the
    sheet is counted. *)
Theorem symbol_only_sheet_name
    (excel_file output_folder : str) (wb : workbook) (w : world)
    (k : nat) (s : str) (t : table) :
  fs w !! excel_file = Some (File (Book wb)) →
  NoDup (sheet_names wb) →
  folder_accepted output_folder (fs w) →
  writes_accepted output_folder wb (folder_ready output_folder (fs w)) →
  wb !! k = Some (s, t) →
  Forall (λ c, c ≠ space ∧ is_word c = false) s →
  (∀ k' s' t', (k < k')%nat → wb !! k' = Some (s', t') →
     clean_filename s' ≠ []) →
  clean_filename (py "---") = py ""
  ∧ clean_filename s = py ""
  ∧ csv_path output_folder s = path_join output_folder (py ".csv")
  ∧ ∃ w',
      convert_excel_to_csv excel_file output_folder w
      = (Ok (true, py "Successfully converted " ++ str_of_nat (length wb)
                   ++ py " sheets to CSV"), w')
      ∧ fs w' !! path_join output_folder (py ".csv")
        = Some (File (Text (render_csv (csv_table t)))).
Proof.
  intros Hbook Hnd Hdir Hacc Hk Hs Hlast.
  pose proof (clean_filename_symbols s Hs) as Hclean.
  assert (csv_path output_folder s = path_join output_folder (py ".csv"))
    as Hpath by (unfold csv_path; by rewrite Hclean).
  split; [reflexivity|]. split; [done|]. split; [done|].
  eexists. split; [by apply convert_excel_to_csv_ok|].
  cbn [fs]. rewrite <- Hpath. apply (sheets_written_lookup _ _ _ k); [done|].
  intros k' s' t' Hlt Hk'. rewrite Hclean. by apply (Hlast k' s' t').
Qed.





(** X2: a refused write ends the run with [False] and the error's text;
    the files of the sheets written before stay, and so do their
    progress lines: nothing is cleaned up. *)
Theorem refused_write_keeps_earlier_files
    (excel_file output_folder : str) (wb : workbook) (w : world)
    (k : nat) (s : str) (t : table) (e : exn) :
  fs w !! excel_file = Some (File (Book wb)) →
  NoDup (sheet_names wb) →
  folder_accepted output_folder (fs w) →
  wb !! k = Some (s, t) →
  writes_accepted output_folder (take k wb) (folder_ready output_folder (fs w)) →
  os_refuses (sheets_written output_folder (take k wb)
                (folder_ready output_folder (fs w)))
             (OpenWrite (csv_path output_folder s)) = Some e →
  convert_excel_to_csv excel_file output_folder w
  = (Ok (false, py "Error converting Excel to CSV: " ++ exn_str e),
     World (sheets_written output_folder (take k wb)
              (folder_ready output_folder (fs w)))
           (stdout w ++ (progress_line output_folder <$> sheet_names (take k wb)))
           (stderr w)).
Proof.
  intros Hbook Hnd Hdir Hk Hacc Hos.
  unfold convert_excel_to_csv, try_except.
  by erewrite (convert_excel_to_csv_try_refused _ _ wb w k s t e).
Qed.

(** ** The order of strings *)

Lemma str_leb_total (a b : str) : str_leb a b = true ∨ str_leb b a = true.
Proof.
  revert b. induction a as [|x a IH]; intros [|y b]; simpl; auto.
  destruct (N.ltb_spec x y), (N.ltb_spec y x), (N.eqb_spec x y),
    (N.eqb_spec y x); simpl; auto; try lia.
Qed.

Lemma str_leb_trans (a b c : str) :
  str_leb a b = true → str_leb b c = true → str_leb a c = true.
Proof.
  revert b c. induction a as [|x a IH]; intros [|y b] [|z c]; simpl; auto;
    try done.
  intros Hab Hbc.
  destruct (N.ltb_spec x y), (N.ltb_spec y z), (N.ltb_spec x z),
    (N.eqb_spec x y), (N.eqb_spec y z), (N.eqb_spec x z);
    simpl in *; try done; try lia.
  by apply (IH b c).
Qed.

#[local] Instance str_le_total : Total str_le.
Proof. intros a b. apply str_leb_total. Qed.

#[local] Instance str_le_trans : Transitive str_le.
Proof. intros a b c. apply str_leb_trans. Qed.

(** ** Runs of [convert_csv_to_excel] *)

Lemma omap_values {A} (f : list cell → option A) (rows : list (list cell)) :
  omap (λ r : N * list cell, f r.2) (range_index rows) = omap f rows.
Proof.
  rewrite <- (range_index_values rows) at 2.
  induction (range_index rows) as [|r l IH]; [done|].
  cbn [omap list_omap fmap list_fmap]. fold (omap f (l.*2)).
  fold (omap (λ r : N * list cell, f r.2) l). by rewrite IH.
Qed.

Lemma filter_values (P : list cell → Prop) `{∀ r, Decision (P r)}
    `{∀ r : N * list cell, Decision (P r.2)} (rows : list (list cell)) :
  (filter (λ r : N * list cell, P r.2) (range_index rows)).*2 = filter P rows.
Proof.
  rewrite <- (range_index_values rows) at 2.
  induction (range_index rows) as [|r l IH]; [done|].
  rewrite fmap_cons, !filter_cons.
  repeat case_decide; try done. by rewrite fmap_cons, IH.
Qed.

Lemma key_of_text (c : cell) (k : str) : key_of c = Some (KStr k) ↔ c = CStr k.
Proof. destruct c; simpl; split; intros; by simplify_eq. Qed.

(** The table stored for the group of a text category. *)
Lemma group_table (tbl : table) (i : nat) (k : str) :
  table_of_frame (reset_index
    (Frame (columns tbl)
           (filter (λ r : N * list cell, key_of (cell_at i r.2) = Some (KStr k))
                   (range_index (body tbl)))))
  = Table (columns tbl) (category_rows tbl i k).
Proof.
  unfold table_of_frame, reset_index, category_rows; simpl.
  rewrite range_index_values.
  rewrite (filter_values (λ r, key_of (cell_at i r) = Some (KStr k))).
  f_equal. apply list_filter_iff. intros r. apply key_of_text.
Qed.

Lemma category_keys_text (tbl : table) (i : nat) (k : key) :
  text_categories tbl i → k ∈ category_keys tbl i → ∃ s, k = KStr s.
Proof.
  intros Htext Hk. apply elem_of_remove_dups, list_elem_of_omap in Hk
    as (r & Hr & Hkey).
  unfold text_categories in Htext. rewrite Forall_forall in Htext.
  specialize (Htext r Hr).
  destruct (cell_at i r) as [s|z|]; simplify_eq/=; [by eexists|].
  by destruct (Htext z).
Qed.

Lemma omap_num_of_key_text (ks : list key) :
  (∀ k, k ∈ ks → ∃ s, k = KStr s) → omap num_of_key ks = [].
Proof.
  induction ks as [|k ks IH]; intros Hks; [done|].
  destruct (Hks k) as [s ->]; [by left|]. simpl.
  apply IH. intros k' Hk'. apply Hks. by right.
Qed.

Lemma sort_keys_text (tbl : table) (i : nat) :
  text_categories tbl i →
  sort_keys (category_keys tbl i) = KStr <$> categories tbl i.
Proof.
  intros Htext. unfold sort_keys, categories.
  rewrite omap_num_of_key_text; [done|].
  intros k. by apply category_keys_text.
Qed.

Lemma NoDup_omap_str_of_key (ks : list key) :
  NoDup ks → NoDup (omap str_of_key ks).
Proof.
  induction 1 as [|k ks Hk Hnd IH]; [constructor|].
  destruct k as [z|s]; simpl; [done|].
  constructor; [|done].
  intros Hin. apply list_elem_of_omap in Hin as (k' & Hk' & Heq).
  destruct k'; simplify_eq/=. done.
Qed.

Lemma categories_NoDup (tbl : table) (i : nat) : NoDup (categories tbl i).
Proof.
  unfold categories. rewrite merge_sort_Permutation.
  apply NoDup_omap_str_of_key, NoDup_remove_dups.
Qed.

Lemma categories_sorted (tbl : table) (i : nat) :
  StronglySorted str_le (categories tbl i).
Proof. apply StronglySorted_merge_sort; apply _. Qed.

Lemma elem_of_categories (tbl : table) (i : nat) (k : str) :
  k ∈ categories tbl i ↔ ∃ r, r ∈ body tbl ∧ cell_at i r = CStr k.
Proof.
  unfold categories. rewrite merge_sort_Permutation.
  rewrite list_elem_of_omap. split.
  - intros (k' & Hk' & Heq). destruct k'; simplify_eq/=.
    apply elem_of_remove_dups, list_elem_of_omap in Hk' as (r & Hr & Hkey).
    exists r. split; [done|]. by apply key_of_text.
  - intros (r & Hr & Hc). exists (KStr k). split; [|done].
    apply elem_of_remove_dups, list_elem_of_omap.
    exists r. split; [done|]. by apply key_of_text.
Qed.

Lemma dict_set_fresh {V} (k : key) (v : V) (d : list (key * V)) :
  k ∉ d.*1 → dict_set k v d = d ++ [(k, v)].
Proof.
  induction d as [|[k' v'] d IH]; intros Hk; [done|].
  simpl. rewrite fmap_cons in Hk. apply not_elem_of_cons in Hk as [Hne Hk].
  rewrite decide_False by done. by rewrite IH.
Qed.

(** Filling a [dict] under keys that all differ keeps their order. *)
Lemma foldl_dict_set {A V} (f : A → V) (groups : list (key * A))
    (d : list (key * V)) :
  NoDup (d.*1 ++ groups.*1) →
  foldl (λ d g, dict_set g.1 (f g.2) d) d groups
  = d ++ ((λ g, (g.1, f g.2)) <$> groups).
Proof.
  revert d. induction groups as [|[k a] groups IH]; intros d Hnd.
  - simpl. by rewrite app_nil_r.
  - cbn [foldl fst snd]. rewrite fmap_cons in Hnd. simpl in Hnd.
    rewrite dict_set_fresh.
    + rewrite IH.
      * by rewrite <- app_assoc.
      * rewrite fmap_app, <- app_assoc. done.
    + apply NoDup_app in Hnd as (_ & Hd & _).
      intros Hin. apply (Hd k Hin). by left.
Qed.

Lemma sheet_names_put_sheet (title : str) (t : table) (book : workbook) :
  sheet_names (put_sheet title t book)
  = if decide (title ∈ sheet_names book) then sheet_names book
    else sheet_names book ++ [title].
Proof.
  unfold put_sheet, sheet_names.
  destruct (list_find (λ x, x.1 = title) book) as [[i [title' old]]|] eqn:Hf.
  - apply list_find_Some in Hf as (Hi & Heq & _). simpl in Heq. subst title'.
    rewrite decide_True by (apply list_elem_of_fmap; exists (title, old);
      split; [done|]; by apply list_elem_of_lookup_2 in Hi).
    rewrite list_fmap_insert. simpl. apply list_insert_id.
    by rewrite list_lookup_fmap, Hi.
  - apply list_find_None in Hf. rewrite Forall_forall in Hf.
    rewrite decide_False.
    + by rewrite fmap_app.
    + intros Hin. apply list_elem_of_fmap in Hin as (x & -> & Hx).
      by apply (Hf x).
Qed.

Lemma put_sheet_fresh (title : str) (t : table) (book : workbook) :
  title ∉ sheet_names book → put_sheet title t book = book ++ [(title, t)].
Proof.
  intros Hfresh. unfold put_sheet.
  destruct (list_find (λ x, x.1 = title) book) as [[i [title' old]]|] eqn:Hf;
    [|done].
  apply list_find_Some in Hf as (Hi & Heq & _). simpl in Heq. subst title'.
  destruct Hfresh. apply list_elem_of_fmap. exists (title, old).
  split; [done|]. by apply list_elem_of_lookup_2 in Hi.
Qed.

(** Writing a frame into the writer's book, when the workbook library
    takes the titles as they are. *)
Lemma to_excel_put (titles : list str) (df : DataFrame) (name : str)
    (w : world) (book : workbook) :
  titles_accepted titles → name ∈ titles → sheet_names book ⊆ titles →
  to_excel df name (w, book)
  = (Ok tt, (w, put_sheet name (table_of_frame df) book)).
Proof.
  intros Hacc Hname Hbook. unfold to_excel, put_sheet.
  destruct (list_find (λ x, x.1 = name) book) as [[i [title' old]]|] eqn:Hf;
    [done|].
  rewrite Hacc; [done|done| |done].
  apply list_find_None in Hf. rewrite Forall_forall in Hf.
  intros Hin. apply list_elem_of_fmap in Hin as (x & -> & Hx).
  by apply (Hf x).
Qed.

Lemma sheet_names_put_sheet_subseteq (titles : list str) (title : str)
    (t : table) (book : workbook) :
  title ∈ titles → sheet_names book ⊆ titles →
  sheet_names (put_sheet title t book) ⊆ titles.
Proof.
  intros Ht Hb. rewrite sheet_names_put_sheet. case_decide; [done|].
  intros x Hx. apply elem_of_app in Hx as [Hx|Hx]; [by apply Hb|].
  apply list_elem_of_singleton in Hx. by subst.
Qed.

Lemma for_each_category (tbl : table) (i : nat) (titles : list str)
    (ks : list str) (w : world) (book : workbook) :
  titles_accepted titles →
  (sheet_title <$> ks) ⊆ titles → sheet_names book ⊆ titles →
  for_each ((λ k, (KStr k, reset_index
              (Frame (columns tbl)
                 (filter (λ r : N * list cell,
                            key_of (cell_at i r.2) = Some (KStr k))
                         (range_index (body tbl)))))) <$> ks)
           write_category (w, book)
  = (Ok tt,
     (w, foldl (λ book k, put_sheet (sheet_title k)
                            (Table (columns tbl) (category_rows tbl i k)) book)
               book ks)).
Proof.
  intros Hacc. revert book.
  induction ks as [|k ks IH]; intros book Hks Hbook; [done|].
  rewrite fmap_cons in Hks.
  assert (sheet_title k ∈ titles) as Hk by (apply Hks; by left).
  cbn [fmap list_fmap for_each foldl].
  erewrite bind_Ok; cycle 1.
  { unfold write_category, category_replace.
    erewrite bind_Ok by reflexivity.
    fold (sheet_title k).
    rewrite (to_excel_put titles) by done. by rewrite group_table. }
  apply IH.
  - intros x Hx. apply Hks. by right.
  - by apply sheet_names_put_sheet_subseteq.
Qed.

Lemma foldl_put_sheet_cons {A} (f : A → str) (g : A → table) (ks : list A)
    (book : workbook) :
  book ≠ [] → foldl (λ book k, put_sheet (f k) (g k) book) book ks ≠ [].
Proof.
  revert book. induction ks as [|k ks IH]; intros book Hne; [done|].
  simpl. apply IH. intros Heq.
  apply (f_equal sheet_names) in Heq. rewrite sheet_names_put_sheet in Heq.
  destruct book; [done|]. case_decide; [done|]. done.
Qed.

#[local] Instance KStr_inj : Inj (=) (=) KStr.
Proof. intros a b Hab. by injection Hab. Qed.

Lemma read_csv_ok (p : str) (c : content) (tbl : table) (w : world) :
  fs w !! p = Some (File c) → parse_csv c = inr tbl →
  read_csv p w = (Ok (frame_of_table tbl), w).
Proof.
  intros Hp Hc. unfold read_csv, open_read.
  erewrite bind_Ok by (rewrite Hp; reflexivity). by rewrite Hc.
Qed.

Lemma groupby_text {S} (tbl : table) (i : nat) (s : S) :
  column_index (py "Category") (columns tbl) = Some i →
  text_categories tbl i →
  groupby (py "Category") (frame_of_table tbl) s
  = (Ok ((λ k, (KStr k, Frame (columns tbl)
                 (filter (λ r : N * list cell,
                            key_of (cell_at i r.2) = Some (KStr k))
                         (range_index (body tbl))))) <$> categories tbl i), s).
Proof.
  intros Hi Htext. unfold groupby. cbn [df_columns df_rows frame_of_table].
  rewrite Hi. unfold ret. f_equal. f_equal.
  rewrite (omap_values (λ r, key_of (cell_at i r))).
  fold (category_keys tbl i). rewrite sort_keys_text by done.
  by rewrite <- list_fmap_compose.
Qed.

(** A run on a readable catalog with a text category column, when the
    operating system lets the workbook be written and the workbook
    library takes the titles as they are. *)
Lemma convert_csv_to_excel_ok script_dir today w c (tbl : table) i :
  fs w !! catalog_csv script_dir = Some (File c) →
  parse_csv c = inr tbl →
  column_index (py "Category") (columns tbl) = Some i →
  text_categories tbl i →
  os_refuses (fs w) (OpenWrite (catalog_xlsx script_dir)) = None →
  titles_accepted (py "Introduction" :: (sheet_title <$> categories tbl i)) →
  convert_csv_to_excel script_dir today w
  = (Ok tt,
     World (<[catalog_xlsx script_dir := File (Book (catalog_book today tbl i))]>
              (fs w))
           (stdout w ++ [py "Excel file created at: " ++ catalog_xlsx script_dir])
           (stderr w)).
Proof.
  intros Hcsv Hparse Hi Htext Hos Hacc.
  unfold convert_csv_to_excel. cbv zeta.
  fold (catalog_csv script_dir). fold (catalog_xlsx script_dir).
  erewrite bind_Ok by (by apply (read_csv_ok _ c tbl)).
  erewrite bind_Ok by (by apply groupby_text).
  rewrite (foldl_dict_set reset_index); cycle 1.
  { simpl. rewrite <- list_fmap_compose. simpl.
    apply (NoDup_fmap_2 KStr), categories_NoDup. }
  rewrite app_nil_l, <- list_fmap_compose.
  rewrite (bind_Ok _ _ w tt
    (World (<[catalog_xlsx script_dir
              := File (Book (catalog_book today tbl i))]> (fs w))
           (stdout w) (stderr w))); [reflexivity|].
  unfold with_ExcelWriter. rewrite Hos.
  set (titles := py "Introduction" :: (sheet_title <$> categories tbl i)) in *.
  set (w0 := set_fs _ w).
  unfold bind at 1.
  rewrite (to_excel_put titles); [|done|by left|by intros x ?%elem_of_nil].
  change (put_sheet (py "Introduction") (table_of_frame (intro_df today)) [])
    with [intro_sheet today].
  pose proof (for_each_category tbl i titles (categories tbl i) w0
                [intro_sheet today] Hacc) as Hloop.
  unfold compose. cbn [fst snd]. rewrite Hloop; cycle 1.
  { intros x Hx. by right. }
  { intros x Hx. apply list_elem_of_singleton in Hx. subst. by left. }
  fold (catalog_book today tbl i).
  destruct (catalog_book today tbl i) as [|sh book] eqn:Hbook.
  { by apply foldl_put_sheet_cons in Hbook. }
  unfold w0, set_fs; simpl. by rewrite insert_insert_eq.
Qed.

Lemma foldl_put_sheet_fresh {A} (f : A → str) (g : A → table) (ks : list A)
    (book : workbook) :
  NoDup (sheet_names book ++ (f <$> ks)) →
  foldl (λ book k, put_sheet (f k) (g k) book) book ks
  = book ++ ((λ k, (f k, g k)) <$> ks).
Proof.
  revert book. induction ks as [|k ks IH]; intros book Hnd.
  - simpl. by rewrite app_nil_r.
  - cbn [foldl]. rewrite fmap_cons in Hnd. rewrite put_sheet_fresh.
    + rewrite IH.
      * by rewrite <- app_assoc.
      * unfold sheet_names. rewrite fmap_app, <- app_assoc. done.
    + apply NoDup_app in Hnd as (_ & Hd & _).
      intros Hin. apply (Hd (f k) Hin). by left.
Qed.

(** When the derived titles differ from each other and from
    "Introduction", the book has one sheet per category after the
    introduction, in the order of the groups. *)
Lemma catalog_book_fresh (today : str) (tbl : table) (i : nat) :
  NoDup (py "Introduction" :: (sheet_title <$> categories tbl i)) →
  catalog_book today tbl i
  = intro_sheet today
    :: ((λ k, (sheet_title k, Table (columns tbl) (category_rows tbl i k)))
          <$> categories tbl i).
Proof.
  intros Hnd. unfold catalog_book.
  by rewrite (foldl_put_sheet_fresh sheet_title
                (λ k, Table (columns tbl) (category_rows tbl i k))).
Qed.

Lemma groups_cons_other (rows : list (list cell)) (i : nat) (r : list cell)
    (ks : list str) :
  (∀ k, k ∈ ks → cell_at i r ≠ CStr k) →
  (λ k, filter (λ r, cell_at i r = CStr k) (r :: rows)) <$> ks
  = (λ k, filter (λ r, cell_at i r = CStr k) rows) <$> ks.
Proof.
  intros Hks. apply list_fmap_ext. intros n k Hk.
  apply filter_cons_False, Hks. by apply list_elem_of_lookup_2 in Hk.
Qed.

(** The groups of all the categories hold, between them, each row with
    a category once. *)
Lemma concat_groups (rows : list (list cell)) (i : nat) (ks : list str) :
  NoDup ks →
  (∀ r k, r ∈ rows → cell_at i r = CStr k → k ∈ ks) →
  (∀ r z, r ∈ rows → cell_at i r ≠ CNum z) →
  concat ((λ k, filter (λ r, cell_at i r = CStr k) rows) <$> ks)
  ≡ₚ filter (λ r, cell_at i r ≠ CNaN) rows.
Proof.
  intros Hnd. induction rows as [|r rows IH]; intros Hcover Htext.
  - clear. induction ks as [|k ks IH]; [done|]. simpl. by rewrite IH.
  - assert (concat ((λ k, filter (λ r, cell_at i r = CStr k) rows) <$> ks)
            ≡ₚ filter (λ r, cell_at i r ≠ CNaN) rows) as IH'.
    { apply IH.
      - intros r' k Hr'. apply Hcover. by right.
      - intros r' z Hr'. apply Htext. by right. }
    destruct (cell_at i r) as [k0|z|] eqn:Hcell.
    + assert (k0 ∈ ks) as Hk0 by (apply (Hcover r); [by left|done]).
      apply list_elem_of_split in Hk0 as (ks1 & ks2 & ->).
      apply NoDup_app in Hnd as (_ & Hks1 & Hks2).
      apply NoDup_cons in Hks2 as [Hks2 _].
      rewrite filter_cons_True by (by rewrite Hcell).
      rewrite <- IH'.
      rewrite !fmap_app, !fmap_cons, !concat_app, !concat_cons.
      rewrite !groups_cons_other.
      * rewrite filter_cons_True by done. rewrite <- app_comm_cons.
        symmetry. apply Permutation_middle.
      * intros k Hk. rewrite Hcell. intros [= ->]. done.
      * intros k Hk. rewrite Hcell. intros [= ->].
        apply (Hks1 k Hk). by left.
    + by destruct (Htext r z (list_elem_of_here _ _)).
    + rewrite filter_cons_False by (rewrite Hcell; auto).
      rewrite groups_cons_other; [done|].
      intros k _. by rewrite Hcell.
Qed.

(** C1 (as amended): the workbook written has the Introduction sheet
    first and then one sheet per category, in ascending order of the
    category values (the order in which [groupby] yields the groups),
    provided the operating system lets the workbook be written, the
    titles derived from the categories differ from each other and from
    "Introduction", and the workbook library takes each of them as it
    is (it rejects some titles and renames others). *)
Theorem sheets_in_ascending_category_order
    (script_dir today : str) (w : world) (c : content) (tbl : table) (i : nat) :
  fs w !! catalog_csv script_dir = Some (File c) →
  parse_csv c = inr tbl →
  column_index (py "Category") (columns tbl) = Some i →
  text_categories tbl i →
  os_refuses (fs w) (OpenWrite (catalog_xlsx script_dir)) = None →
  titles_accepted (py "Introduction" :: (sheet_title <$> categories tbl i)) →
  NoDup (py "Introduction" :: (sheet_title <$> categories tbl i)) →
  ∃ w' (book : workbook),
    convert_csv_to_excel script_dir today w = (Ok tt, w')
    ∧ fs w' !! catalog_xlsx script_dir = Some (File (Book book))
    ∧ sheet_names book
      = py "Introduction" :: (sheet_title <$> categories tbl i)
    ∧ StronglySorted str_le (categories tbl i)
    ∧ NoDup (categories tbl i)
    ∧ ∀ k, k ∈ categories tbl i ↔ ∃ r, r ∈ body tbl ∧ cell_at i r = CStr k.
Proof.
  intros Hcsv Hparse Hi Htext Hos Hacc Hnd.
  eexists _, (catalog_book today tbl i).
  split; [by apply (convert_csv_to_excel_ok _ _ _ c tbl i)|].
  split; [cbn [fs]; by rewrite lookup_insert_eq|].
  split.
  { rewrite catalog_book_fresh by done. unfold sheet_names.
    rewrite fmap_cons, <- list_fmap_compose. done. }
  split; [apply categories_sorted|].
  split; [apply categories_NoDup|].
  apply elem_of_categories.
Qed.

(** C2 (as amended): when the operating system lets the workbook be
    written, the titles derived from the categories differ from each
    other and from "Introduction", and the workbook library takes each
    of them as it is, the data rows of the category sheets are, between
    them, the rows of the catalog that have a category, each once;
    every category sheet holds the rows of one category in the order
    they have in the catalog. *)
Theorem category_sheets_partition_rows
    (script_dir today : str) (w : world) (c : content) (tbl : table) (i : nat) :
  fs w !! catalog_csv script_dir = Some (File c) →
  parse_csv c = inr tbl →
  column_index (py "Category") (columns tbl) = Some i →
  text_categories tbl i →
  os_refuses (fs w) (OpenWrite (catalog_xlsx script_dir)) = None →
  titles_accepted (py "Introduction" :: (sheet_title <$> categories tbl i)) →
  NoDup (py "Introduction" :: (sheet_title <$> categories tbl i)) →
  ∃ w' (book : workbook),
    convert_csv_to_excel script_dir today w = (Ok tt, w')
    ∧ fs w' !! catalog_xlsx script_dir = Some (File (Book book))
    ∧ category_sheet_rows book ≡ₚ filter (λ r, cell_at i r ≠ CNaN) (body tbl)
    ∧ Forall (λ sh, ∃ k, sh.1 = sheet_title k
                         ∧ body sh.2 = filter (λ r, cell_at i r = CStr k) (body tbl)
                         ∧ body sh.2 `sublist_of` body tbl)
             (tail book).
Proof.
  intros Hcsv Hparse Hi Htext Hos Hacc Hnd.
  eexists _, (catalog_book today tbl i).
  split; [by apply (convert_csv_to_excel_ok _ _ _ c tbl i)|].
  split; [cbn [fs]; by rewrite lookup_insert_eq|].
  rewrite catalog_book_fresh by done. unfold category_sheet_rows. cbn [tail].
  split.
  - rewrite <- list_fmap_compose. apply concat_groups.
    + apply categories_NoDup.
    + intros r k Hr Hk. apply elem_of_categories. by exists r.
    + intros r z Hr. unfold text_categories in Htext.
      rewrite Forall_forall in Htext. by apply Htext.
  - apply Forall_fmap, Forall_true. intros k. exists k.
    split; [done|]. split; [done|]. apply sublist_filter.
Qed.

Lemma omap_key_of_column (rows : list (list cell)) (i : nat) :
  omap (λ r, key_of (cell_at i r)) rows = omap key_of (cell_at i <$> rows).
Proof. induction rows as [|r rows IH]; [done|]. csimpl. by rewrite IH. Qed.

(** C4 (as amended): for a catalog whose rows have the categories "Core
    System", "Ship System", "Visual Effects" in that order, the sheets of
    the workbook written are, in order, "Introduction", "Core System
    Files", "Ship System Files", "Visual Effects Files".  The first two
    category titles are the result of the replacement; the third is not:
    the replacement leaves "Visual Effects" as it is, and the renaming
    of "Visual Effects" gives the title. *)
Theorem three_category_sheets
    (script_dir today : str) (w : world) (c : content) (tbl : table) (i : nat) :
  fs w !! catalog_csv script_dir = Some (File c) →
  parse_csv c = inr tbl →
  column_index (py "Category") (columns tbl) = Some i →
  cell_at i <$> body tbl
  = [CStr (py "Core System"); CStr (py "Ship System"); CStr (py "Visual Effects")] →
  os_refuses (fs w) (OpenWrite (catalog_xlsx script_dir)) = None →
  titles_accepted [py "Introduction"; py "Core System Files";
                   py "Ship System Files"; py "Visual Effects Files"] →
  ∃ w' (book : workbook),
    convert_csv_to_excel script_dir today w = (Ok tt, w')
    ∧ fs w' !! catalog_xlsx script_dir = Some (File (Book book))
    ∧ sheet_names book
      = [py "Introduction"; py "Core System Files";
         py "Ship System Files"; py "Visual Effects Files"]
    ∧ by_replacement_alone (py "Core System")
    ∧ by_replacement_alone (py "Ship System")
    ∧ str_replace (py "System") (py "System Files") (py "Visual Effects")
      = py "Visual Effects"
    ∧ rename_special (py "Visual Effects") = py "Visual Effects Files".
Proof.
  intros Hcsv Hparse Hi Hcol Hos Hacc.
  assert (categories tbl i
          = [py "Core System"; py "Ship System"; py "Visual Effects"]) as Hcat.
  { unfold categories, category_keys.
    rewrite omap_key_of_column, Hcol. by vm_compute. }
  assert (text_categories tbl i) as Htext.
  { unfold text_categories.
    apply (Forall_fmap (cell_at i) (λ c, ∀ z, c ≠ CNum z)).
    rewrite Hcol. by repeat constructor. }
  assert (py "Introduction" :: (sheet_title <$> categories tbl i)
          = [py "Introduction"; py "Core System Files";
             py "Ship System Files"; py "Visual Effects Files"]) as Htitles.
  { rewrite Hcat. by vm_compute. }
  eexists _, (catalog_book today tbl i).
  split.
  { apply (convert_csv_to_excel_ok _ _ _ c tbl i); try done.
    by rewrite Htitles. }
  split; [cbn [fs]; by rewrite lookup_insert_eq|].
  split.
  { rewrite catalog_book_fresh.
    - unfold sheet_names. rewrite fmap_cons, <- list_fmap_compose.
      exact Htitles.
    - rewrite Htitles. compute_done. }
  repeat split; by vm_compute.
Qed.

Lemma column_index_None (name : str) (cols : list str) :
  name ∉ cols → column_index name cols = None.
Proof.
  intros Hname. unfold column_index.
  destruct (list_find (λ c0, c0 = name) cols) as [[n c0]|] eqn:Hf; [|done].
  apply list_find_Some in Hf as (Hn & -> & _).
  destruct Hname. by apply list_elem_of_lookup_2 in Hn.
Qed.

(** C5: when the catalog read has no column named "Category", the run
    raises [KeyError] for that name where the rows are grouped, before
    the workbook is opened for writing: the process ends with status 1
    and the file system is as it was, the workbook's path included. *)
Theorem missing_category_column
    (script_dir today : str) (w : world) (c : content) (tbl : table) :
  fs w !! catalog_csv script_dir = Some (File c) →
  parse_csv c = inr tbl →
  py "Category" ∉ columns tbl →
  convert_csv_to_excel script_dir today w = (Raise (KeyError (py "Category")), w)
  ∧ ∃ w',
      run_process (merger_main script_dir today) w = (1, w')
      ∧ fs w' = fs w
      ∧ fs w' !! catalog_xlsx script_dir = fs w !! catalog_xlsx script_dir
      ∧ stdout w' = stdout w.
Proof.
  intros Hcsv Hparse Hcol.
  assert (convert_csv_to_excel script_dir today w
          = (Raise (KeyError (py "Category")), w)) as Hrun.
  { unfold convert_csv_to_excel. cbv zeta. fold (catalog_csv script_dir).
    erewrite bind_Ok by (by apply (read_csv_ok _ c tbl)).
    apply bind_Raise. unfold groupby. cbn [df_columns frame_of_table].
    by rewrite column_index_None. }
  split; [done|].
  unfold run_process, merger_main.
  erewrite bind_Raise by exact Hrun.
  eexists. split; [reflexivity|]. done.
Qed.

(** ** The titles of the sheets *)

Lemma replace_from_keeps (old new : str) (c : N) (skip : nat) (s : str) :
  c ∈ new → c ∈ drop skip s → c ∈ replace_from old new skip s.
Proof.
  intros Hnew. revert skip. induction s as [|x s IH]; intros skip Hc.
  - by rewrite drop_nil in Hc.
  - destruct skip as [|k]; cbn [replace_from].
    + destruct (startswith old (x :: s)).
      * apply elem_of_app. by left.
      * rewrite drop_0 in Hc. apply elem_of_cons in Hc as [->|Hc]; [by left|].
        right. apply IH. by rewrite drop_0.
    + apply IH. by rewrite skipn_cons in Hc.
Qed.

(** X3: a category that contains "System" gets its title from the
    replacement alone: none of the three renamings applies to it. *)
Theorem sheet_title_with_System (category : str) :
  (∃ a b, category = a ++ py "System" ++ b) →
  sheet_title category
  = str_replace (py "System") (py "System Files") category.
Proof.
  intros (a & b & ->).
  assert (121 ∈ str_replace (py "System") (py "System Files")
                  (a ++ py "System" ++ b)) as Hy.
  { apply (replace_from_keeps _ _ 121 0); [compute_done|].
    rewrite drop_0. apply elem_of_app. right.
    apply elem_of_app. left. compute_done. }
  unfold sheet_title, rename_special.
  set (name := str_replace _ _ _) in *.
  repeat case_bool_decide; try done;
    match goal with H : name = _ |- _ => rewrite H in Hy end;
    exfalso; revert Hy; compute_done.
Qed.

Lemma sheet_names_foldl_put_sheet {A} (f : A → str) (g : A → table)
    (ks : list A) (book : workbook) :
  ∃ rest, sheet_names (foldl (λ book k, put_sheet (f k) (g k) book) book ks)
          = sheet_names book ++ rest
          ∧ rest ⊆ f <$> ks.
Proof.
  revert book. induction ks as [|k ks IH]; intros book.
  - exists []. by rewrite app_nil_r.
  - cbn [foldl]. destruct (IH (put_sheet (f k) (g k) book)) as (rest & -> & Hr).
    rewrite sheet_names_put_sheet. case_decide.
    + exists rest. split; [done|]. intros x Hx. right. by apply Hr.
    + exists (f k :: rest). split; [by rewrite <- app_assoc|].
      intros x Hx. apply elem_of_cons in Hx as [->|Hx]; [by left|].
      right. by apply Hr.
Qed.

(** The workbook written always has a first sheet titled
    "Introduction"; the titles after it are derived from categories. *)
Theorem introduction_sheet_first
    (script_dir today : str) (w : world) (c : content) (tbl : table) (i : nat) :
  fs w !! catalog_csv script_dir = Some (File c) →
  parse_csv c = inr tbl →
  column_index (py "Category") (columns tbl) = Some i →
  text_categories tbl i →
  os_refuses (fs w) (OpenWrite (catalog_xlsx script_dir)) = None →
  titles_accepted (py "Introduction" :: (sheet_title <$> categories tbl i)) →
  ∃ w' (book : workbook) rest,
    convert_csv_to_excel script_dir today w = (Ok tt, w')
    ∧ fs w' !! catalog_xlsx script_dir = Some (File (Book book))
    ∧ sheet_names book = py "Introduction" :: rest
    ∧ rest ⊆ sheet_title <$> categories tbl i.
Proof.
  intros Hcsv Hparse Hi Htext Hos Hacc.
  destruct (sheet_names_foldl_put_sheet sheet_title
              (λ k, Table (columns tbl) (category_rows tbl i k))
              (categories tbl i) [intro_sheet today]) as (rest & Hnames & Hrest).
  eexists _, (catalog_book today tbl i), rest.
  split; [by apply (convert_csv_to_excel_ok _ _ _ c tbl i)|].
  split; [cbn [fs]; by rewrite lookup_insert_eq|].
  split; [exact Hnames|done].
Qed.

(** ** More on [clean_filename] and the paths written *)

Lemma csv_path_in_folder (output_folder s : str) :
  path_join output_folder (clean_filename s ++ py ".csv")
  = path_join output_folder (py "") ++ clean_filename s ++ py ".csv".
Proof.
  unfold path_join. rewrite startswith_slash_stem.
  change (startswith [slash] (py "")) with false.
  destruct (bool_decide (output_folder = []) || ends_with_slash output_folder);
    by rewrite ?app_nil_r, <- ?app_assoc.
Qed.

Lemma clean_filename_concat (a b : str) :
  clean_filename (a ++ b) = clean_filename a ++ clean_filename b.
Proof. rewrite !clean_filename_filter. by rewrite fmap_app, filter_app. Qed.

(** X6: a sanitized name has no path separator, no dot and no space, so
    the file of a sheet lies directly in the output folder, whatever
    the sheet is called: its path is the folder (with a separator where
    one is needed), the sanitized name and ".csv". *)
Theorem clean_filename_stays_in_folder (output_folder s : str) :
  (slash ∉ clean_filename s)
  ∧ (46 ∉ clean_filename s)
  ∧ (space ∉ clean_filename s)
  ∧ path_join output_folder (clean_filename s ++ py ".csv")
    = path_join output_folder (py "") ++ clean_filename s ++ py ".csv".
Proof.
  pose proof (clean_filename_word s) as Hw. rewrite Forall_forall in Hw.
  split; [intros Hin; by apply Hw in Hin|].
  split; [intros Hin; by apply Hw in Hin|].
  split; [intros Hin; by apply Hw in Hin|].
  apply csv_path_in_folder.
Qed.

(** X7: sanitizing goes character by character: the sanitized form of
    a concatenation is the concatenation of the sanitized forms, and a
    sanitized name is never longer than the name. *)
Theorem clean_filename_app (a b : str) :
  clean_filename (a ++ b) = clean_filename a ++ clean_filename b
  ∧ (length (clean_filename a) ≤ length a)%nat.
Proof.
  split; [apply clean_filename_concat|].
  rewrite clean_filename_filter.
  etrans; [apply length_filter|]. by rewrite length_fmap.
Qed.

(** X8: a space and an underscore at the same place give the same
    sanitized name, hence the same file: names that differ only there
    collide. *)
Theorem space_and_underscore_collide (output_folder a b : str) :
  clean_filename (a ++ py " " ++ b) = clean_filename (a ++ py "_" ++ b)
  ∧ clean_filename (a ++ py " " ++ b)
    = clean_filename a ++ py "_" ++ clean_filename b
  ∧ csv_path output_folder (a ++ py " " ++ b)
    = csv_path output_folder (a ++ py "_" ++ b).
Proof.
  assert (clean_filename (a ++ py " " ++ b)
          = clean_filename a ++ py "_" ++ clean_filename b) as Hsp.
  { by rewrite (clean_filename_concat a), (clean_filename_concat (py " ") b). }
  assert (clean_filename (a ++ py "_" ++ b)
          = clean_filename a ++ py "_" ++ clean_filename b) as Hus.
  { by rewrite (clean_filename_concat a), (clean_filename_concat (py "_") b). }
  split; [by rewrite Hsp, Hus|]. split; [done|].
  apply csv_path_inj. by rewrite Hsp, Hus.
Qed.

(** ** Failing and repeated runs of [convert_excel_to_csv] *)













(** ** More on the sheets of [convert_csv_to_excel] *)

Lemma elem_of_first_seen (x : str) (l : list str) : x ∈ first_seen l ↔ x ∈ l.
Proof.
  induction l as [|y l IH]; [done|]. cbn [first_seen].
  rewrite !elem_of_cons, list_elem_of_filter, IH.
  split; [intros [?|[_ ?]]; auto|].
  intros [?|?]; [by left|]. destruct (decide (x = y)); auto.
Qed.

Lemma first_seen_NoDup (l : list str) : NoDup (first_seen l).
Proof.
  induction l as [|y l IH]; [constructor|]. cbn [first_seen].
  constructor; [|by apply NoDup_filter].
  intros Hin. apply list_elem_of_filter in Hin as [Hne _]. done.
Qed.

Lemma first_seen_length (l : list str) : (length (first_seen l) ≤ length l)%nat.
Proof.
  induction l as [|y l IH]; [done|]. cbn [first_seen length].
  pose proof (length_filter (λ z, z ≠ y) (first_seen l)). lia.
Qed.

Lemma first_seen_length_repeat (l : list str) :
  ¬ NoDup l → (length (first_seen l) < length l)%nat.
Proof.
  induction l as [|y l IH]; intros Hdup; [destruct Hdup; constructor|].
  cbn [first_seen length].
  pose proof (length_filter (λ z, z ≠ y) (first_seen l)) as Hf.
  pose proof (first_seen_length l) as Hl.
  destruct (decide (y ∈ l)) as [Hy|Hy].
  - enough (length (filter (λ z, z ≠ y) (first_seen l))
            < length (first_seen l))%nat by lia.
    apply elem_of_first_seen, list_elem_of_split in Hy as (l1 & l2 & ->).
    rewrite filter_app, filter_cons_False by auto.
    pose proof (length_filter (λ z, z ≠ y) l1).
    pose proof (length_filter (λ z, z ≠ y) l2).
    rewrite !length_app. simpl. lia.
  - assert (¬ NoDup l) as Hl' by (intros Hnd; apply Hdup; by constructor).
    specialize (IH Hl'). lia.
Qed.

(** The titles of the book after a run of writes: those it had, then
    the new ones where each is first met. *)
Lemma sheet_names_foldl_first_seen {A} (f : A → str) (g : A → table)
    (ks : list A) (book : workbook) :
  sheet_names (foldl (λ book k, put_sheet (f k) (g k) book) book ks)
  = sheet_names book
    ++ filter (λ x, x ∉ sheet_names book) (first_seen (f <$> ks)).
Proof.
  revert book. induction ks as [|k ks IH]; intros book.
  - simpl. by rewrite app_nil_r.
  - cbn [foldl]. rewrite IH, sheet_names_put_sheet.
    rewrite fmap_cons. cbn [first_seen]. case_decide as Hk.
    + rewrite filter_cons_False by auto.
      rewrite list_filter_filter. f_equal. apply list_filter_iff.
      intros x. split; [|by intros [? ?]]. intros Hx. split; [done|].
      by intros ->.
    + rewrite filter_cons_True by done.
      rewrite list_filter_filter, <- app_assoc. cbn [app]. do 2 f_equal.
      apply list_filter_iff. intros x. rewrite elem_of_app, list_elem_of_singleton.
      split; [|intros [H1 H2] [?|?]; done].
      intros Hx. split; intros ?; apply Hx; auto.
Qed.

Lemma catalog_book_names (today : str) (tbl : table) (i : nat) :
  sheet_names (catalog_book today tbl i)
  = first_seen (py "Introduction" :: (sheet_title <$> categories tbl i)).
Proof.
  unfold catalog_book. rewrite sheet_names_foldl_first_seen.
  cbn [first_seen sheet_names fmap list_fmap intro_sheet fst app].
  f_equal. apply list_filter_iff. intros x.
  rewrite list_elem_of_singleton. done.
Qed.

(** X13: when the operating system lets the workbook be written and the
    workbook library takes the derived titles as they are, the sheets
    of the workbook written are titled, in order, "Introduction" and
    then the titles derived from the categories in ascending order of
    the categories, each title where it is first met: no title occurs
    twice, so there are never more sheets than categories and one. *)
Theorem sheet_titles_without_repeats
    (script_dir today : str) (w : world) (c : content) (tbl : table) (i : nat) :
  fs w !! catalog_csv script_dir = Some (File c) →
  parse_csv c = inr tbl →
  column_index (py "Category") (columns tbl) = Some i →
  text_categories tbl i →
  os_refuses (fs w) (OpenWrite (catalog_xlsx script_dir)) = None →
  titles_accepted (py "Introduction" :: (sheet_title <$> categories tbl i)) →
  ∃ w' (book : workbook),
    convert_csv_to_excel script_dir today w = (Ok tt, w')
    ∧ fs w' !! catalog_xlsx script_dir = Some (File (Book book))
    ∧ sheet_names book
      = first_seen (py "Introduction" :: (sheet_title <$> categories tbl i))
    ∧ NoDup (sheet_names book)
    ∧ (length book ≤ S (length (categories tbl i)))%nat.
Proof.
  intros Hcsv Hparse Hi Htext Hos Hacc.
  eexists _, (catalog_book today tbl i).
  split; [by apply (convert_csv_to_excel_ok _ _ _ c tbl i)|].
  split; [cbn [fs]; by rewrite lookup_insert_eq|].
  split; [apply catalog_book_names|].
  split; [rewrite catalog_book_names; apply first_seen_NoDup|].
  rewrite <- (length_fmap fst (catalog_book today tbl i)).
  fold (sheet_names (catalog_book today tbl i)). rewrite catalog_book_names.
  etrans; [apply first_seen_length|]. simpl. by rewrite length_fmap.
Qed.

(** X14: two different categories that derive the same title share one
    sheet, so the workbook has fewer category sheets than the catalog
    has categories.  "Core Files" and "Core System" are such a pair,
    through the renaming of "Core Files". *)
Theorem same_title_shares_a_sheet
    (script_dir today : str) (w : world) (c : content) (tbl : table) (i : nat)
    (a b : str) :
  fs w !! catalog_csv script_dir = Some (File c) →
  parse_csv c = inr tbl →
  column_index (py "Category") (columns tbl) = Some i →
  text_categories tbl i →
  os_refuses (fs w) (OpenWrite (catalog_xlsx script_dir)) = None →
  titles_accepted (py "Introduction" :: (sheet_title <$> categories tbl i)) →
  a ∈ categories tbl i → b ∈ categories tbl i → a ≠ b →
  sheet_title a = sheet_title b →
  sheet_title (py "Core Files") = sheet_title (py "Core System")
  ∧ ∃ w' (book : workbook),
      convert_csv_to_excel script_dir today w = (Ok tt, w')
      ∧ fs w' !! catalog_xlsx script_dir = Some (File (Book book))
      ∧ (length book ≤ length (categories tbl i))%nat.
Proof.
  intros Hcsv Hparse Hi Htext Hos Hacc Ha Hb Hab Htitle.
  split; [reflexivity|].
  eexists _, (catalog_book today tbl i).
  split; [by apply (convert_csv_to_excel_ok _ _ _ c tbl i)|].
  split; [cbn [fs]; by rewrite lookup_insert_eq|].
  rewrite <- (length_fmap fst (catalog_book today tbl i)).
  fold (sheet_names (catalog_book today tbl i)). rewrite catalog_book_names.
  enough (length (first_seen (py "Introduction"
                                :: (sheet_title <$> categories tbl i)))
          < S (length (categories tbl i)))%nat by lia.
  rewrite <- (length_fmap sheet_title (categories tbl i)).
  apply (first_seen_length_repeat
           (py "Introduction" :: (sheet_title <$> categories tbl i))).
  intros Hnd.
  apply NoDup_cons in Hnd as [_ Hnd].
  apply list_elem_of_lookup in Ha as [n Hn].
  apply list_elem_of_lookup in Hb as [m Hm].
  assert (n = m) as ->.
  { apply (NoDup_lookup _ n m (sheet_title a) Hnd);
      rewrite list_lookup_fmap.
    - by rewrite Hn.
    - by rewrite Hm, Htitle. }
  congruence.
Qed.

(** ** Edge cases and failures of [convert_csv_to_excel] *)

Lemma groupby_run {S} (tbl : table) (i : nat) (s : S) :
  column_index (py "Category") (columns tbl) = Some i →
  groupby (py "Category") (frame_of_table tbl) s
  = (Ok ((λ k, (k, Frame (columns tbl)
                 (filter (λ r : N * list cell, key_of (cell_at i r.2) = Some k)
                         (range_index (body tbl)))))
           <$> sort_keys (category_keys tbl i)), s).
Proof.
  intros Hi. unfold groupby. cbn [df_columns df_rows frame_of_table].
  rewrite Hi. unfold ret. f_equal. f_equal.
  by rewrite (omap_values (λ r, key_of (cell_at i r))).
Qed.

Lemma categories_none (tbl : table) (i : nat) :
  (∀ r, r ∈ body tbl → cell_at i r = CNaN) → categories tbl i = [].
Proof.
  intros Hnone. unfold categories, category_keys.
  assert (omap (λ r, key_of (cell_at i r)) (body tbl) = []) as ->; [|done].
  induction (body tbl) as [|r rows IH]; [done|]. csimpl.
  rewrite (Hnone r) by (by left). simpl. apply IH.
  intros r' Hr'. apply Hnone. by right.
Qed.

(** X15: a catalog in which no row has a category (one without rows
    among them) gives a workbook with the Introduction sheet alone. *)
Theorem catalog_without_categories
    (script_dir today : str) (w : world) (c : content) (tbl : table) (i : nat) :
  fs w !! catalog_csv script_dir = Some (File c) →
  parse_csv c = inr tbl →
  column_index (py "Category") (columns tbl) = Some i →
  (∀ r, r ∈ body tbl → cell_at i r = CNaN) →
  os_refuses (fs w) (OpenWrite (catalog_xlsx script_dir)) = None →
  titles_accepted [py "Introduction"] →
  convert_csv_to_excel script_dir today w
  = (Ok tt,
     World (<[catalog_xlsx script_dir := File (Book [intro_sheet today])]> (fs w))
           (stdout w ++ [py "Excel file created at: " ++ catalog_xlsx script_dir])
           (stderr w)).
Proof.
  intros Hcsv Hparse Hi Hnone Hos Hacc.
  pose proof (categories_none tbl i Hnone) as Hcat.
  rewrite (convert_csv_to_excel_ok _ _ _ c tbl i); try done.
  - unfold catalog_book. by rewrite Hcat.
  - unfold text_categories. apply Forall_forall. intros r Hr z.
    by rewrite (Hnone r Hr).
  - by rewrite Hcat.
Qed.

Lemma dict_set_head {V} (k k0 : key) (v v0 : V) (d : list (key * V)) :
  ∃ v' d', dict_set k v ((k0, v0) :: d) = (k0, v') :: d'.
Proof. simpl. case_decide; by eexists _, _. Qed.

Lemma foldl_dict_set_head {A V} (f : A → V) (groups : list (key * A))
    (k0 : key) (v0 : V) (d : list (key * V)) :
  ∃ v' d', foldl (λ d g, dict_set g.1 (f g.2) d) ((k0, v0) :: d) groups
           = (k0, v') :: d'.
Proof.
  revert v0 d. induction groups as [|g groups IH]; intros v0 d.
  - by eexists _, _.
  - cbn [foldl].
    destruct (dict_set_head g.1 k0 (f g.2) v0 d) as (v' & d' & ->). apply IH.
Qed.

Lemma sort_keys_number_first (ks : list key) (z : Z) :
  KNum z ∈ ks → ∃ z' rest, sort_keys ks = KNum z' :: rest.
Proof.
  intros Hz. unfold sort_keys.
  assert (z ∈ omap num_of_key ks) as Hin
    by (apply list_elem_of_omap; by exists (KNum z)).
  rewrite <- (merge_sort_Permutation Z.le) in Hin.
  destruct (merge_sort Z.le (omap num_of_key ks)) as [|z' zs];
    [by apply elem_of_nil in Hin|].
  by eexists _, _.
Qed.

(** X16: when a category is a number, [category.replace] fails for the
    first group, numbers being grouped first: the run ends with an
    [AttributeError] after the workbook was opened, so a workbook with
    the Introduction sheet alone is left behind, no line is printed, and
    the process ends with status 1. *)
Theorem number_category_leaves_introduction
    (script_dir today : str) (w : world) (c : content) (tbl : table) (i : nat)
    (r : list cell) (z : Z) :
  fs w !! catalog_csv script_dir = Some (File c) →
  parse_csv c = inr tbl →
  column_index (py "Category") (columns tbl) = Some i →
  r ∈ body tbl → cell_at i r = CNum z →
  os_refuses (fs w) (OpenWrite (catalog_xlsx script_dir)) = None →
  titles_accepted [py "Introduction"] →
  ∃ msg w',
    convert_csv_to_excel script_dir today w = (Raise (AttributeError msg), w')
    ∧ fs w' = <[catalog_xlsx script_dir := File (Book [intro_sheet today])]> (fs w)
    ∧ stdout w' = stdout w
    ∧ (run_process (merger_main script_dir today) w).1 = 1.
Proof.
  intros Hcsv Hparse Hi Hr Hz Hos Hacc.
  assert (KNum z ∈ category_keys tbl i) as Hkey.
  { apply elem_of_remove_dups, list_elem_of_omap. exists r.
    split; [done|]. by rewrite Hz. }
  destruct (sort_keys_number_first _ z Hkey) as (z' & rest & Hsort).
  assert (∃ w',
    convert_csv_to_excel script_dir today w
    = (Raise (AttributeError (py "'int' object has no attribute 'replace'")), w')
    ∧ fs w' = <[catalog_xlsx script_dir := File (Book [intro_sheet today])]> (fs w)
    ∧ stdout w' = stdout w) as (w' & Hrun & Hfs & Hout).
  { unfold convert_csv_to_excel. cbv zeta.
    fold (catalog_csv script_dir). fold (catalog_xlsx script_dir).
    erewrite bind_Ok by (by apply (read_csv_ok _ c tbl)).
    erewrite bind_Ok by (by apply groupby_run).
    rewrite Hsort. cbn [fmap list_fmap foldl dict_set fst snd].
    match goal with |- context [foldl ?g ((?k0, ?v0) :: ?d) ?groups] =>
      destruct (foldl_dict_set_head reset_index groups k0 v0 d)
        as (v' & d' & Hd) end.
    cbn [fst snd] in Hd. rewrite Hd.
    eexists. split.
    - apply bind_Raise. unfold with_ExcelWriter. rewrite Hos.
      unfold bind at 1.
      rewrite (to_excel_put [py "Introduction"]);
        [|done|by left|by intros x ?%elem_of_nil].
      change (put_sheet (py "Introduction") (table_of_frame (intro_df today)) [])
        with [intro_sheet today].
      cbn [for_each]. unfold bind at 1. cbn [write_category category_replace].
      unfold bind at 1, raise. reflexivity.
    - split; [|done]. cbn [fs set_fs]. by rewrite insert_insert_eq. }
  eexists _, w'. split; [exact Hrun|]. split; [done|]. split; [done|].
  unfold run_process, merger_main. erewrite bind_Raise by exact Hrun. done.
Qed.

(** X17: when the catalog file is missing or cannot be parsed, the run
    raises that error at once: nothing is written, nothing is printed
    on the standard output, and the process ends with status 1 after
    the traceback went to the standard error: its heading, the lines of
    the stack frames, and a last line that names the exception, a
    parser's error with its module, and gives its text, the path of a
    missing file as [repr] writes it. *)
Theorem unreadable_catalog
    (script_dir today : str) (w : world) (e : exn) :
  (fs w !! catalog_csv script_dir = None
   ∧ e = FileNotFoundError (catalog_csv script_dir))
  ∨ (∃ c, fs w !! catalog_csv script_dir = Some (File c) ∧ parse_csv c = inl e) →
  convert_csv_to_excel script_dir today w = (Raise e, w)
  ∧ run_process (merger_main script_dir today) w
    = (1, World (fs w) (stdout w)
                (stderr w ++ py "Traceback (most recent call last):"
                             :: traceback_frames e ++ [exception_line e]))
  ∧ (e = FileNotFoundError (catalog_csv script_dir) →
     exception_line e
     = py "FileNotFoundError: [Errno 2] No such file or directory: "
       ++ repr (catalog_csv script_dir))
  ∧ (∀ msg, e = ParserError msg → msg ≠ [] →
     exception_line e = py "pandas.errors.ParserError: " ++ msg).
Proof.
  intros Hbad.
  assert (∀ msg, e = ParserError msg → msg ≠ [] →
            exception_line e = py "pandas.errors.ParserError: " ++ msg) as Hparser.
  { intros msg -> Hmsg. unfold exception_line. cbn [exn_str].
    by rewrite bool_decide_eq_false_2. }
  assert (e = FileNotFoundError (catalog_csv script_dir) →
          exception_line e
          = py "FileNotFoundError: [Errno 2] No such file or directory: "
            ++ repr (catalog_csv script_dir)) as Hmissing.
  { intros ->. unfold exception_line. cbn [exn_str].
    by rewrite bool_decide_eq_false_2. }
  assert (convert_csv_to_excel script_dir today w = (Raise e, w)) as Hrun.
  { unfold convert_csv_to_excel. cbv zeta. fold (catalog_csv script_dir).
    apply bind_Raise. unfold read_csv, open_read.
    destruct Hbad as [[Hnone ->]|(c & Hc & Hparse)].
    - apply bind_Raise. by rewrite Hnone.
    - erewrite bind_Ok by (rewrite Hc; reflexivity). by rewrite Hparse. }
  split; [done|]. split; [|done].
  unfold run_process, merger_main, traceback.
  by erewrite bind_Raise by exact Hrun.
Qed.

(** X18: when the workbook cannot be opened for writing, the run raises
    the operating system's error and has changed nothing, whatever the
    catalog holds. *)
Theorem refused_workbook_changes_nothing
    (script_dir today : str) (w : world) (c : content) (tbl : table) (i : nat)
    (e : exn) :
  fs w !! catalog_csv script_dir = Some (File c) →
  parse_csv c = inr tbl →
  column_index (py "Category") (columns tbl) = Some i →
  os_refuses (fs w) (OpenWrite (catalog_xlsx script_dir)) = Some e →
  convert_csv_to_excel script_dir today w = (Raise e, w).
Proof.
  intros Hcsv Hparse Hi Hos.
  unfold convert_csv_to_excel. cbv zeta.
  fold (catalog_csv script_dir). fold (catalog_xlsx script_dir).
  erewrite bind_Ok by (by apply (read_csv_ok _ c tbl)).
  erewrite bind_Ok by (by apply groupby_run).
  apply bind_Raise. unfold with_ExcelWriter. by rewrite Hos.
Qed.

Lemma to_excel_world (df : DataFrame) (name : str) (w : world) (book : workbook) :
  ∃ r book', to_excel df name (w, book) = (r, (w, book')).
Proof.
  unfold to_excel.
  destruct (list_find (λ x, x.1 = name) book) as [[n [title old]]|];
    [by eexists _, _|].
  destruct (create_sheet book name (table_of_frame df)) as [book' [e|]];
    by eexists _, _.
Qed.

Lemma write_category_world (item : key * DataFrame) (w : world) (book : workbook) :
  ∃ r book', write_category item (w, book) = (r, (w, book')).
Proof.
  destruct item as [[z|s] df]; unfold write_category, category_replace.
  - by eexists _, _.
  - erewrite bind_Ok by reflexivity. apply to_excel_world.
Qed.

Lemma for_each_category_world (items : list (key * DataFrame)) (w : world)
    (book : workbook) :
  ∃ r book', for_each items write_category (w, book) = (r, (w, book')).
Proof.
  revert book. induction items as [|item items IH]; intros book.
  - by eexists _, _.
  - cbn [for_each]. unfold bind.
    destruct (write_category_world item w book) as ([[]|e] & book' & ->);
      [apply IH|by eexists _, _].
Qed.

Lemma with_ExcelWriter_frame (path today : str) (items : list (key * DataFrame))
    (w : world) :
  ∃ r w',
    with_ExcelWriter path
      (to_excel (intro_df today) (py "Introduction") ;;;
       for_each items write_category) w = (r, w')
    ∧ stdout w' = stdout w ∧ stderr w' = stderr w
    ∧ ∀ p, p ≠ path → fs w' !! p = fs w !! p.
Proof.
  unfold with_ExcelWriter.
  destruct (os_refuses (fs w) (OpenWrite path)); [by eexists _, _|].
  set (w0 := set_fs _ w). unfold bind.
  destruct (to_excel_world (intro_df today) (py "Introduction") w0 [])
    as (r1 & book1 & ->).
  assert (∃ r book', (match r1 with
                      | Ok _ => for_each items write_category (w0, book1)
                      | Raise e => (Raise e, (w0, book1))
                      end) = (r, (w0, book'))) as (r & book' & ->).
  { destruct r1; [apply for_each_category_world|by eexists _, _]. }
  destruct book' as [|sh book'];
    eexists _, _; (split; [reflexivity|]); (split; [done|]); (split; [done|]);
    intros p Hp; cbn [fs set_fs w0]; by rewrite ?lookup_insert_ne.
Qed.

Lemma catalog_paths_differ (script_dir : str) :
  catalog_csv script_dir ≠ catalog_xlsx script_dir.
Proof.
  unfold catalog_csv, catalog_xlsx, path_join.
  change (startswith [slash] (py "file_catalog_updated.csv")) with false.
  change (startswith [slash]
            (py "Starkiller Base Command - File Catalog Updated.xlsx"))
    with false.
  destruct (bool_decide (script_dir = []) || ends_with_slash script_dir);
    intros Heq; repeat apply app_inv_head in Heq; by vm_compute in Heq.
Qed.

(** X19: whatever happens in a run of [convert_csv_to_excel], it
    changes no path other than the workbook's, so the catalog it reads
    is never modified, and it prints its one confirmation line on the
    standard output exactly when it ends normally. *)
Theorem convert_csv_to_excel_frame (script_dir today : str) (w : world) :
  (∀ p, p ≠ catalog_xlsx script_dir →
        fs (convert_csv_to_excel script_dir today w).2 !! p = fs w !! p)
  ∧ fs (convert_csv_to_excel script_dir today w).2 !! catalog_csv script_dir
    = fs w !! catalog_csv script_dir
  ∧ stdout (convert_csv_to_excel script_dir today w).2
    = match (convert_csv_to_excel script_dir today w).1 with
      | Ok _ => stdout w ++ [py "Excel file created at: " ++ catalog_xlsx script_dir]
      | Raise _ => stdout w
      end.
Proof.
  destruct (convert_csv_to_excel script_dir today w) as [res w'] eqn:Hrun.
  cbn [fst snd].
  assert ((∀ p, p ≠ catalog_xlsx script_dir → fs w' !! p = fs w !! p)
    ∧ stderr w' = stderr w
    ∧ stdout w'
      = match res with
        | Ok _ => stdout w ++ [py "Excel file created at: " ++ catalog_xlsx script_dir]
        | Raise _ => stdout w
        end) as (Hfs & Herr & Hout).
  { revert Hrun. unfold convert_csv_to_excel. cbv zeta.
    fold (catalog_csv script_dir). fold (catalog_xlsx script_dir).
    unfold bind at 1.
    assert (∃ r, read_csv (catalog_csv script_dir) w = (r, w)) as [r ->].
    { unfold read_csv, open_read, bind, raise, ret.
      destruct (fs w !! catalog_csv script_dir) as [[|c]|]; try by eexists.
      destruct (parse_csv c); by eexists. }
    destruct r as [df|e]; [|by intros [= <- <-]].
    unfold bind at 1.
    assert (∃ r, groupby (py "Category") df w = (r, w)) as [r ->].
    { unfold groupby, raise, ret.
      destruct (column_index (py "Category") (df_columns df)); by eexists. }
    destruct r as [groups|e]; [|by intros [= <- <-]].
    unfold bind at 1.
    destruct (with_ExcelWriter_frame (catalog_xlsx script_dir) today
                (foldl (λ d g, dict_set g.1 (reset_index g.2) d) [] groups) w)
      as (r & w1 & -> & Ho & He & Hf).
    destruct r as [[]|e]; intros [= <- <-]; cbn [fs stdout stderr];
      by rewrite ?Ho. }
  split; [done|]. split; [|done].
  apply Hfs, catalog_paths_differ.
Qed.

Lemma put_sheet_head (title : str) (t : table) (x : str * table)
    (book : workbook) :
  title ≠ x.1 → ∃ book', put_sheet title t (x :: book) = x :: book'.
Proof.
  intros Hne. unfold put_sheet. cbn [list_find].
  rewrite decide_False by (by intros Heq).
  destruct (list_find (λ x0, x0.1 = title) book) as [[n [title' old]]|];
    by eexists.
Qed.

Lemma foldl_put_sheet_head {A} (f : A → str) (g : A → table) (ks : list A)
    (x : str * table) (book : workbook) :
  x.1 ∉ f <$> ks →
  ∃ book', foldl (λ book k, put_sheet (f k) (g k) book) (x :: book) ks
           = x :: book'.
Proof.
  revert book. induction ks as [|k ks IH]; intros book Hx; [by eexists|].
  rewrite fmap_cons in Hx. apply not_elem_of_cons in Hx as [Hk Hx].
  cbn [foldl]. destruct (put_sheet_head (f k) (g k) x book) as [book' ->];
    [done|]. by apply IH.
Qed.

(** X20: unless a category derives the title "Introduction", the first
    sheet of the workbook written is the introduction as built: one
    column, "File Organization Strategy", and fourteen lines, the
    thirteenth of which carries the day of the run. *)
Theorem introduction_sheet_intact
    (script_dir today : str) (w : world) (c : content) (tbl : table) (i : nat) :
  fs w !! catalog_csv script_dir = Some (File c) →
  parse_csv c = inr tbl →
  column_index (py "Category") (columns tbl) = Some i →
  text_categories tbl i →
  os_refuses (fs w) (OpenWrite (catalog_xlsx script_dir)) = None →
  titles_accepted (py "Introduction" :: (sheet_title <$> categories tbl i)) →
  py "Introduction" ∉ sheet_title <$> categories tbl i →
  ∃ w' (intro : table) (book : workbook),
    convert_csv_to_excel script_dir today w = (Ok tt, w')
    ∧ fs w' !! catalog_xlsx script_dir
      = Some (File (Book ((py "Introduction", intro) :: book)))
    ∧ columns intro = [py "File Organization Strategy"]
    ∧ length (body intro) = 14%nat
    ∧ body intro !! 12%nat
      = Some [CStr (py "This catalog was updated on " ++ today ++ py ".")].
Proof.
  intros Hcsv Hparse Hi Htext Hos Hacc Hintro.
  destruct (foldl_put_sheet_head sheet_title
              (λ k, Table (columns tbl) (category_rows tbl i k))
              (categories tbl i) (intro_sheet today) []) as [book Hbook];
    [done|].
  eexists _, (table_of_frame (intro_df today)), book.
  split; [by apply (convert_csv_to_excel_ok _ _ _ c tbl i)|].
  split.
  { cbn [fs]. rewrite lookup_insert_eq. unfold catalog_book. by rewrite Hbook. }
  split; [reflexivity|]. split; reflexivity.
Qed.

(** X21: when the operating system lets the workbook be written, the
    derived titles differ from each other and from "Introduction" and
    the workbook library takes them as they are, the sheet under the
    title of a category carries the catalog's whole header and the
    whole rows of that category, the category column included. *)
Theorem category_sheet_keeps_header
    (script_dir today : str) (w : world) (c : content) (tbl : table) (i : nat)
    (k : str) :
  fs w !! catalog_csv script_dir = Some (File c) →
  parse_csv c = inr tbl →
  column_index (py "Category") (columns tbl) = Some i →
  text_categories tbl i →
  os_refuses (fs w) (OpenWrite (catalog_xlsx script_dir)) = None →
  titles_accepted (py "Introduction" :: (sheet_title <$> categories tbl i)) →
  NoDup (py "Introduction" :: (sheet_title <$> categories tbl i)) →
  k ∈ categories tbl i →
  ∃ w' (book : workbook) (n : nat) (t : table),
    convert_csv_to_excel script_dir today w = (Ok tt, w')
    ∧ fs w' !! catalog_xlsx script_dir = Some (File (Book book))
    ∧ list_find (λ sh, sh.1 = sheet_title k) book = Some (n, (sheet_title k, t))
    ∧ columns t = columns tbl
    ∧ body t = filter (λ r, cell_at i r = CStr k) (body tbl)
    ∧ Forall (λ r, r ∈ body tbl ∧ cell_at i r = CStr k) (body t).
Proof.
  intros Hcsv Hparse Hi Htext Hos Hacc Hnd Hk.
  apply list_elem_of_lookup in Hk as [m Hm].
  assert (catalog_book today tbl i !! S m
          = Some (sheet_title k, Table (columns tbl) (category_rows tbl i k)))
    as Hsheet.
  { rewrite catalog_book_fresh by done.
    change (((λ k0, (sheet_title k0,
                     Table (columns tbl) (category_rows tbl i k0)))
               <$> categories tbl i) !! m
            = Some (sheet_title k, Table (columns tbl) (category_rows tbl i k))).
    by rewrite list_lookup_fmap, Hm. }
  eexists _, (catalog_book today tbl i), (S m),
    (Table (columns tbl) (category_rows tbl i k)).
  split; [by apply (convert_csv_to_excel_ok _ _ _ c tbl i)|].
  split; [cbn [fs]; by rewrite lookup_insert_eq|].
  split.
  { apply list_find_title; [|done].
    rewrite catalog_book_names. apply first_seen_NoDup. }
  split; [done|]. split; [done|].
  apply Forall_forall. intros r Hr.
  by apply list_elem_of_filter in Hr as [? ?].
Qed.

(** ** The two entry points *)

(** X5: run as a program on a workbook that is read, with the folder
    and every write accepted, SheetSplitter exits with status 0; the
    standard output gets one progress line per sheet, in sheet order,
    and then the message with the number of sheets. *)
Theorem splitter_main_output (wb : workbook) (w : world) :
  fs w !! GameData_xlsx = Some (File (Book wb)) →
  NoDup (sheet_names wb) →
  folder_accepted CSV_folder (fs w) →
  writes_accepted CSV_folder wb (folder_ready CSV_folder (fs w)) →
  ∃ w',
    run_process splitter_main w = (0, w')
    ∧ fs w' = sheets_written CSV_folder wb (folder_ready CSV_folder (fs w))
    ∧ stdout w'
      = stdout w
        ++ ((λ sheet, py "Converted sheet " ++ [quote] ++ sheet ++ [quote]
                      ++ py " to " ++ csv_path CSV_folder sheet)
              <$> sheet_names wb)
        ++ [py "Successfully converted " ++ str_of_nat (length wb)
            ++ py " sheets to CSV"].
Proof.
  intros Hbook Hnd Hdir Hacc. unfold run_process, splitter_main. cbv zeta.
  erewrite bind_Ok by (by apply (convert_excel_to_csv_ok _ _ wb)).
  eexists. split; [reflexivity|]. split; [reflexivity|].
  cbn. by rewrite <- app_assoc.
Qed.

(** X4: run as a program on a catalog that is read and has a text
    category column, with the workbook's write accepted and the titles
    taken by the workbook library as they are, CatalogMerger exits with
    status 0; the workbook replaces whatever was at its path, and the
    standard output gets the one confirmation line. *)
Theorem merger_main_output
    (script_dir today : str) (w : world) (c : content) (tbl : table) (i : nat) :
  fs w !! catalog_csv script_dir = Some (File c) →
  parse_csv c = inr tbl →
  column_index (py "Category") (columns tbl) = Some i →
  text_categories tbl i →
  os_refuses (fs w) (OpenWrite (catalog_xlsx script_dir)) = None →
  titles_accepted (py "Introduction" :: (sheet_title <$> categories tbl i)) →
  ∃ w',
    run_process (merger_main script_dir today) w = (0, w')
    ∧ fs w' = <[catalog_xlsx script_dir
                 := File (Book (catalog_book today tbl i))]> (fs w)
    ∧ stdout w'
      = stdout w ++ [py "Excel file created at: " ++ catalog_xlsx script_dir].
Proof.
  intros Hcsv Hparse Hi Htext Hos Hacc. unfold run_process, merger_main.
  erewrite bind_Ok by (by apply (convert_csv_to_excel_ok _ _ _ c tbl i)).
  eexists. by split.
Qed.

End Scripts.

(** ** The theorems at the sample inputs *)

Lemma game_data_titles : NoDup (sheet_names game_data).
Proof. compute_done. Qed.

Lemma game_data_folder :
  folder_accepted posix_refuses CSV_folder (fs splitter_world).
Proof. intros _. by vm_compute. Qed.

Lemma game_data_writes :
  writes_accepted latin1_only posix_refuses unquoted_csv CSV_folder game_data
    (folder_ready posix_refuses CSV_folder (fs splitter_world)).
Proof.
  intros k s t Hk.
  do 5 (destruct k as [|k]; [injection Hk as <- <-; by vm_compute|]).
  done.
Qed.

Lemma later_sheet_overwrites_earlier_witness :
  ∃ w',
    convert_excel_to_csv latin1_only latin1_only posix_refuses unquoted_csv
      GameData_xlsx CSV_folder splitter_world
    = (Ok (true, py "Successfully converted 5 sheets to CSV"), w')
    ∧ py "A B" ≠ py "A_B"
    ∧ csv_path latin1_only CSV_folder (py "A B")
      = csv_path latin1_only CSV_folder (py "A_B")
    ∧ fs w' !! csv_path latin1_only CSV_folder (py "A_B")
      = Some (File (Text (py ("Key" ++ String "010" "second"
                              ++ String "010" "")))).
Proof.
  apply (later_sheet_overwrites_earlier latin1_only latin1_only posix_refuses unquoted_csv
           GameData_xlsx CSV_folder game_data splitter_world 2 3
           (py "A B") (py "A_B")
           (Table [py "Key"] [[CStr (py "first")]])
           (Table [py "Key"] [[CStr (py "second")]])).
  - by vm_compute.
  - exact game_data_titles.
  - exact game_data_folder.
  - exact game_data_writes.
  - reflexivity.
  - reflexivity.
  - lia.
  - by vm_compute.
  - intros k s t Hlt Hk.
    do 4 (destruct k as [|k]; [lia|]).
    destruct k as [|k]; [|done].
    injection Hk as <- <-. by vm_compute.
Defined.


Lemma symbol_only_sheet_name_witness :
  clean_filename latin1_only (py "---") = py ""
  ∧ clean_filename latin1_only (py "---") = py ""
  ∧ csv_path latin1_only CSV_folder (py "---") = path_join CSV_folder (py ".csv")
  ∧ ∃ w',
      convert_excel_to_csv latin1_only latin1_only posix_refuses unquoted_csv
        GameData_xlsx CSV_folder splitter_world
      = (Ok (true, py "Successfully converted 5 sheets to CSV"), w')
      ∧ fs w' !! path_join CSV_folder (py ".csv")
        = Some (File (Text (py ("Note" ++ String "010" (String "010" ""))))).
Proof.
  apply (symbol_only_sheet_name latin1_only latin1_only posix_refuses unquoted_csv
           GameData_xlsx CSV_folder game_data splitter_world 4
           (py "---") (Table [py "Note"] [[CNaN]])).
  - by vm_compute.
  - exact game_data_titles.
  - exact game_data_folder.
  - exact game_data_writes.
  - reflexivity.
  - repeat constructor; by vm_compute.
  - intros k s t Hlt Hk. do 5 (destruct k as [|k]; [lia|]). done.
Defined.

Lemma append_sheet_accepts (titles : list str) :
  titles_accepted append_sheet titles.
Proof. intros book name t _ _ _. reflexivity. Qed.

Lemma sheets_in_ascending_category_order_witness :
  ∃ w' (book : workbook),
    convert_csv_to_excel posix_refuses (parse_as ship_core_catalog) append_sheet
      (py "Assets") a_day catalog_world = (Ok tt, w')
    ∧ fs w' !! catalog_xlsx (py "Assets") = Some (File (Book book))
    ∧ sheet_names book
      = py "Introduction" :: (sheet_title <$> categories ship_core_catalog 1)
    ∧ StronglySorted str_le (categories ship_core_catalog 1)
    ∧ NoDup (categories ship_core_catalog 1)
    ∧ ∀ k, k ∈ categories ship_core_catalog 1
           ↔ ∃ r, r ∈ body ship_core_catalog ∧ cell_at 1 r = CStr k.
Proof.
  apply (sheets_in_ascending_category_order posix_refuses
           (parse_as ship_core_catalog) append_sheet (py "Assets") a_day
           catalog_world (Text (py "catalog")) ship_core_catalog 1).
  - by vm_compute.
  - reflexivity.
  - reflexivity.
  - repeat constructor; by vm_compute.
  - by vm_compute.
  - apply append_sheet_accepts.
  - compute_done.
Defined.

Lemma category_sheets_partition_rows_witness :
  ∃ w' (book : workbook),
    convert_csv_to_excel posix_refuses (parse_as mixed_catalog)
      append_sheet (py "Assets") a_day catalog_world = (Ok tt, w')
    ∧ fs w' !! catalog_xlsx (py "Assets") = Some (File (Book book))
    ∧ category_sheet_rows book
      ≡ₚ filter (λ r, cell_at 1 r ≠ CNaN) (body mixed_catalog)
    ∧ Forall (λ sh, ∃ k, sh.1 = sheet_title k
                ∧ body sh.2
                  = filter (λ r, cell_at 1 r = CStr k) (body mixed_catalog)
                ∧ body sh.2 `sublist_of` body mixed_catalog)
             (tail book).
Proof.
  apply (category_sheets_partition_rows posix_refuses
           (parse_as mixed_catalog) append_sheet (py "Assets") a_day
           catalog_world (Text (py "catalog")) mixed_catalog 1).
  - by vm_compute.
  - reflexivity.
  - reflexivity.
  - repeat constructor; by vm_compute.
  - by vm_compute.
  - apply append_sheet_accepts.
  - compute_done.
Defined.

Lemma three_category_sheets_witness :
  ∃ w' (book : workbook),
    convert_csv_to_excel posix_refuses (parse_as three_category_catalog)
      append_sheet (py "Assets") a_day catalog_world = (Ok tt, w')
    ∧ fs w' !! catalog_xlsx (py "Assets") = Some (File (Book book))
    ∧ sheet_names book
      = [py "Introduction"; py "Core System Files";
         py "Ship System Files"; py "Visual Effects Files"]
    ∧ by_replacement_alone (py "Core System")
    ∧ by_replacement_alone (py "Ship System")
    ∧ str_replace (py "System") (py "System Files") (py "Visual Effects")
      = py "Visual Effects"
    ∧ rename_special (py "Visual Effects") = py "Visual Effects Files".
Proof.
  apply (three_category_sheets posix_refuses
           (parse_as three_category_catalog) append_sheet (py "Assets") a_day
           catalog_world (Text (py "catalog")) three_category_catalog 1).
  - by vm_compute.
  - reflexivity.
  - reflexivity.
  - reflexivity.
  - by vm_compute.
  - apply append_sheet_accepts.
Defined.

Lemma missing_category_column_witness :
  convert_csv_to_excel posix_refuses (parse_as headless_catalog) append_sheet
    (py "Assets") a_day catalog_world
  = (Raise (KeyError (py "Category")), catalog_world)
  ∧ ∃ w',
      run_process latin1_only script_frame
        (merger_main posix_refuses (parse_as headless_catalog)
                     append_sheet (py "Assets") a_day) catalog_world = (1, w')
      ∧ fs w' = fs catalog_world
      ∧ fs w' !! catalog_xlsx (py "Assets")
        = fs catalog_world !! catalog_xlsx (py "Assets")
      ∧ stdout w' = stdout catalog_world.
Proof.
  apply (missing_category_column latin1_only posix_refuses (parse_as headless_catalog)
           append_sheet script_frame (py "Assets") a_day catalog_world
           (Text (py "catalog")) headless_catalog).
  - by vm_compute.
  - reflexivity.
  - compute_done.
Defined.


(** The run of the witness above makes "out" and then "out/csv", and
    writes the two files there. *)
Example nested_folder_run :
  dom (fs (convert_excel_to_csv latin1_only latin1_only posix_refuses unquoted_csv
             (py "GameData.xlsx") (py "out/csv") scenario_one_world).2)
  = {[ py "GameData.xlsx"; py "out"; py "out/csv";
       py "out/csv/Main_Data.csv"; py "out/csv/NPCList.csv" ]}
  ∧ fs (convert_excel_to_csv latin1_only latin1_only posix_refuses unquoted_csv
          (py "GameData.xlsx") (py "out/csv") scenario_one_world).2
    !! py "out/csv/Main_Data.csv"
    = Some (File (Text (py ("Id,Name" ++ String "010" "1,Tarkin"
                            ++ String "010" "2," ++ String "010" "")))).
Proof. split; [apply set_eq; intros p|]; by vm_compute. Qed.

Lemma refused_write_keeps_earlier_files_witness :
  convert_excel_to_csv latin1_only latin1_only posix_refuses unquoted_csv
    (py "GameData.xlsx") (py "out") blocked_world
  = (Ok (false, py "Error converting Excel to CSV: [Errno 21] Is a directory: 'out/NPCList.csv'"),
     World (sheets_written latin1_only unquoted_csv (py "out") (take 1 scenario_one)
              (folder_ready posix_refuses (py "out") (fs blocked_world)))
           (stdout blocked_world
            ++ (progress_line latin1_only (py "out")
                  <$> sheet_names (take 1 scenario_one)))
           (stderr blocked_world)).
Proof.
  apply (refused_write_keeps_earlier_files latin1_only latin1_only posix_refuses
           unquoted_csv (py "GameData.xlsx") (py "out") scenario_one
           blocked_world 1 (py "NPC-List")
           (Table [py "Npc"; py "Rank"] [[CStr (py "Veers"); CStr (py "")]])
           (IsADirectoryError (py "out/NPCList.csv"))).
  - by vm_compute.
  - compute_done.
  - intros _. by vm_compute.
  - reflexivity.
  - intros k s t Hk.
    destruct k as [|k]; [injection Hk as <- <-; by vm_compute|done].
  - by vm_compute.
Defined.

Lemma sheet_title_with_System_witness :
  sheet_title (py "Core System") = py "Core System Files".
Proof.
  apply (sheet_title_with_System (py "Core System")).
  by exists (py "Core "), (py "").
Defined.

Lemma introduction_sheet_first_witness :
  ∃ w' (book : workbook) rest,
    convert_csv_to_excel posix_refuses (parse_as core_catalog) append_sheet
      (py "Assets") a_day catalog_world = (Ok tt, w')
    ∧ fs w' !! catalog_xlsx (py "Assets") = Some (File (Book book))
    ∧ sheet_names book = py "Introduction" :: rest
    ∧ rest ⊆ sheet_title <$> categories core_catalog 1.
Proof.
  apply (introduction_sheet_first posix_refuses (parse_as core_catalog)
           append_sheet (py "Assets") a_day catalog_world
           (Text (py "catalog")) core_catalog 1).
  - by vm_compute.
  - reflexivity.
  - reflexivity.
  - repeat constructor; by vm_compute.
  - by vm_compute.
  - apply append_sheet_accepts.
Defined.

(** Two categories that derive one title share one sheet: for
    [core_catalog] the book has the sheets "Introduction" and "Core
    System Files", and the rows of "Core System", written second, stand
    where the row of "Core Files" was. *)
Theorem same_title_same_sheet :
  sheet_title (py "Core Files") = py "Core System Files"
  ∧ sheet_title (py "Core System") = py "Core System Files"
  ∧ ∃ w' (book : workbook),
      convert_csv_to_excel posix_refuses (parse_as core_catalog) append_sheet
        (py "Assets") a_day catalog_world = (Ok tt, w')
      ∧ fs w' !! catalog_xlsx (py "Assets") = Some (File (Book book))
      ∧ sheet_names book = [py "Introduction"; py "Core System Files"]
      ∧ category_sheet_rows book
        = [[CStr (py "GameManager.cs"); CStr (py "Core System")]].
Proof.
  split; [reflexivity|]. split; [reflexivity|].
  exists (convert_csv_to_excel posix_refuses (parse_as core_catalog)
            append_sheet (py "Assets") a_day catalog_world).2,
         (catalog_book a_day core_catalog 1).
  repeat split; by vm_compute.
Qed.

(** [str.replace] on samples: every occurrence, left to right, without
    overlap. *)
Example str_replace_samples :
  str_replace (py "System") (py "System Files") (py "Core System")
  = py "Core System Files"
  ∧ str_replace (py "System") (py "System Files") (py "System to System")
    = py "System Files to System Files"
  ∧ str_replace (py "aa") (py "b") (py "aaa") = py "ba"
  ∧ str_replace (py "") (py "-") (py "ab") = py "-a-b-".
Proof. repeat split; reflexivity. Qed.




Lemma sheet_titles_without_repeats_witness :
  ∃ w' (book : workbook),
    convert_csv_to_excel posix_refuses (parse_as core_catalog) append_sheet
      (py "Assets") a_day catalog_world = (Ok tt, w')
    ∧ fs w' !! catalog_xlsx (py "Assets") = Some (File (Book book))
    ∧ sheet_names book
      = first_seen (py "Introduction" :: (sheet_title <$> categories core_catalog 1))
    ∧ NoDup (sheet_names book)
    ∧ (length book ≤ S (length (categories core_catalog 1)))%nat.
Proof.
  apply (sheet_titles_without_repeats posix_refuses (parse_as core_catalog)
           append_sheet (py "Assets") a_day catalog_world
           (Text (py "catalog")) core_catalog 1).
  - by vm_compute.
  - reflexivity.
  - reflexivity.
  - repeat constructor; by vm_compute.
  - by vm_compute.
  - apply append_sheet_accepts.
Defined.

Lemma same_title_shares_a_sheet_witness :
  sheet_title (py "Core Files") = sheet_title (py "Core System")
  ∧ ∃ w' (book : workbook),
      convert_csv_to_excel posix_refuses (parse_as core_catalog) append_sheet
        (py "Assets") a_day catalog_world = (Ok tt, w')
      ∧ fs w' !! catalog_xlsx (py "Assets") = Some (File (Book book))
      ∧ (length book ≤ length (categories core_catalog 1))%nat.
Proof.
  apply (same_title_shares_a_sheet posix_refuses (parse_as core_catalog)
           append_sheet (py "Assets") a_day catalog_world
           (Text (py "catalog")) core_catalog 1
           (py "Core Files") (py "Core System")).
  - by vm_compute.
  - reflexivity.
  - reflexivity.
  - repeat constructor; by vm_compute.
  - by vm_compute.
  - apply append_sheet_accepts.
  - compute_done.
  - compute_done.
  - by vm_compute.
  - reflexivity.
Defined.

Lemma catalog_without_categories_witness :
  convert_csv_to_excel posix_refuses (parse_as blank_catalog) append_sheet
    (py "Assets") a_day catalog_world
  = (Ok tt,
     World (<[catalog_xlsx (py "Assets") := File (Book [intro_sheet a_day])]>
              (fs catalog_world))
           [py "Excel file created at: Assets/Starkiller Base Command - File Catalog Updated.xlsx"]
           []).
Proof.
  apply (catalog_without_categories posix_refuses (parse_as blank_catalog)
           append_sheet (py "Assets") a_day catalog_world
           (Text (py "catalog")) blank_catalog 1).
  - by vm_compute.
  - reflexivity.
  - reflexivity.
  - intros r Hr. apply list_elem_of_singleton in Hr. by subst.
  - by vm_compute.
  - apply append_sheet_accepts.
Defined.

Lemma number_category_leaves_introduction_witness :
  ∃ msg w',
    convert_csv_to_excel posix_refuses (parse_as numbered_catalog) append_sheet
      (py "Assets") a_day catalog_world = (Raise (AttributeError msg), w')
    ∧ fs w'
      = <[catalog_xlsx (py "Assets") := File (Book [intro_sheet a_day])]>
          (fs catalog_world)
    ∧ stdout w' = stdout catalog_world
    ∧ (run_process latin1_only script_frame
         (merger_main posix_refuses (parse_as numbered_catalog)
            append_sheet (py "Assets") a_day) catalog_world).1 = 1.
Proof.
  apply (number_category_leaves_introduction latin1_only posix_refuses
           (parse_as numbered_catalog) append_sheet script_frame (py "Assets") a_day
           catalog_world (Text (py "catalog")) numbered_catalog 1
           [CStr (py "b.cs"); CNum 2] 2%Z).
  - by vm_compute.
  - reflexivity.
  - reflexivity.
  - by left.
  - reflexivity.
  - by vm_compute.
  - apply append_sheet_accepts.
Defined.

Lemma unreadable_catalog_witness :
  convert_csv_to_excel posix_refuses parse_fails append_sheet
    (py "Assets") a_day catalog_world
  = (Raise (ParserError (py "Error tokenizing data. C error: Expected 2 fields in line 3, saw 3")),
     catalog_world)
  ∧ run_process latin1_only script_frame
      (merger_main posix_refuses parse_fails append_sheet (py "Assets") a_day)
      catalog_world
    = (1, World (fs catalog_world) []
            [py "Traceback (most recent call last):";
             py "  File convert_to_excel.py, line 59, in <module>";
             py "    convert_csv_to_excel()";
             py "pandas.errors.ParserError: Error tokenizing data. C error: Expected 2 fields in line 3, saw 3"])
  ∧ (ParserError (py "Error tokenizing data. C error: Expected 2 fields in line 3, saw 3")
     = FileNotFoundError (catalog_csv (py "Assets")) →
     exception_line latin1_only
       (ParserError (py "Error tokenizing data. C error: Expected 2 fields in line 3, saw 3"))
     = py "FileNotFoundError: [Errno 2] No such file or directory: "
       ++ repr latin1_only (catalog_csv (py "Assets")))
  ∧ (∀ msg,
       ParserError (py "Error tokenizing data. C error: Expected 2 fields in line 3, saw 3")
       = ParserError msg → msg ≠ [] →
       exception_line latin1_only
         (ParserError (py "Error tokenizing data. C error: Expected 2 fields in line 3, saw 3"))
       = py "pandas.errors.ParserError: " ++ msg).
Proof.
  apply (unreadable_catalog latin1_only posix_refuses parse_fails append_sheet
           script_frame (py "Assets") a_day catalog_world
           (ParserError (py "Error tokenizing data. C error: Expected 2 fields in line 3, saw 3"))).
  right. exists (Text (py "catalog")). split; reflexivity.
Defined.

Lemma refused_workbook_changes_nothing_witness :
  convert_csv_to_excel posix_refuses (parse_as ship_core_catalog) append_sheet
    (py "Assets") a_day locked_world
  = (Raise (IsADirectoryError
              (py "Assets/Starkiller Base Command - File Catalog Updated.xlsx")),
     locked_world).
Proof.
  apply (refused_workbook_changes_nothing posix_refuses
           (parse_as ship_core_catalog) append_sheet (py "Assets") a_day
           locked_world (Text (py "catalog")) ship_core_catalog 1).
  - by vm_compute.
  - reflexivity.
  - reflexivity.
  - by vm_compute.
Defined.

Lemma introduction_sheet_intact_witness :
  ∃ w' (intro : table) (book : workbook),
    convert_csv_to_excel posix_refuses (parse_as ship_core_catalog) append_sheet
      (py "Assets") a_day catalog_world = (Ok tt, w')
    ∧ fs w' !! catalog_xlsx (py "Assets")
      = Some (File (Book ((py "Introduction", intro) :: book)))
    ∧ columns intro = [py "File Organization Strategy"]
    ∧ length (body intro) = 14%nat
    ∧ body intro !! 12%nat
      = Some [CStr (py "This catalog was updated on 2025-05-04.")].
Proof.
  apply (introduction_sheet_intact posix_refuses (parse_as ship_core_catalog)
           append_sheet (py "Assets") a_day catalog_world
           (Text (py "catalog")) ship_core_catalog 1).
  - by vm_compute.
  - reflexivity.
  - reflexivity.
  - repeat constructor; by vm_compute.
  - by vm_compute.
  - apply append_sheet_accepts.
  - compute_done.
Defined.

Lemma category_sheet_keeps_header_witness :
  ∃ w' (book : workbook) (n : nat) (t : table),
    convert_csv_to_excel posix_refuses (parse_as ship_core_catalog) append_sheet
      (py "Assets") a_day catalog_world = (Ok tt, w')
    ∧ fs w' !! catalog_xlsx (py "Assets") = Some (File (Book book))
    ∧ list_find (λ sh, sh.1 = sheet_title (py "Ship System")) book
      = Some (n, (sheet_title (py "Ship System"), t))
    ∧ columns t = columns ship_core_catalog
    ∧ body t
      = filter (λ r, cell_at 1 r = CStr (py "Ship System")) (body ship_core_catalog)
    ∧ Forall (λ r, r ∈ body ship_core_catalog
                   ∧ cell_at 1 r = CStr (py "Ship System")) (body t).
Proof.
  apply (category_sheet_keeps_header posix_refuses (parse_as ship_core_catalog)
           append_sheet (py "Assets") a_day catalog_world
           (Text (py "catalog")) ship_core_catalog 1 (py "Ship System")).
  - by vm_compute.
  - reflexivity.
  - reflexivity.
  - repeat constructor; by vm_compute.
  - by vm_compute.
  - apply append_sheet_accepts.
  - compute_done.
  - compute_done.
Defined.

Lemma splitter_main_output_witness :
  ∃ w',
    run_process latin1_only script_frame
      (splitter_main latin1_only latin1_only posix_refuses unquoted_csv)
      splitter_world
    = (0, w')
    ∧ fs w' = sheets_written latin1_only unquoted_csv CSV_folder game_data
                (folder_ready posix_refuses CSV_folder (fs splitter_world))
    ∧ stdout w'
      = [] ++ ((λ sheet, py "Converted sheet " ++ [quote] ++ sheet ++ [quote]
                         ++ py " to " ++ csv_path latin1_only CSV_folder sheet)
                 <$> sheet_names game_data)
           ++ [py "Successfully converted 5 sheets to CSV"].
Proof.
  apply (splitter_main_output latin1_only latin1_only posix_refuses unquoted_csv
           script_frame game_data splitter_world).
  - by vm_compute.
  - exact game_data_titles.
  - exact game_data_folder.
  - exact game_data_writes.
Defined.

Lemma merger_main_output_witness :
  ∃ w',
    run_process latin1_only script_frame
      (merger_main posix_refuses (parse_as ship_core_catalog)
         append_sheet (py "Assets") a_day) catalog_world
    = (0, w')
    ∧ fs w' = <[catalog_xlsx (py "Assets")
                 := File (Book (catalog_book a_day ship_core_catalog 1))]>
                (fs catalog_world)
    ∧ stdout w'
      = [] ++ [py "Excel file created at: Assets/Starkiller Base Command - File Catalog Updated.xlsx"].
Proof.
  apply (merger_main_output latin1_only posix_refuses (parse_as ship_core_catalog)
           append_sheet script_frame (py "Assets") a_day catalog_world
           (Text (py "catalog")) ship_core_catalog 1).
  - by vm_compute.
  - reflexivity.
  - reflexivity.
  - repeat constructor; by vm_compute.
  - by vm_compute.
  - apply append_sheet_accepts.
Defined.

(** ** Where the wording of the specification and the scripts part *)

(** C1 as worded fails: the categories of [ship_core_catalog] are first
    met in the order "Ship System", "Core System", and the sheets follow
    the ascending order "Core System Files", "Ship System Files". *)
Lemma sheets_not_in_first_seen_order :
  ∃ w' (book : workbook),
    convert_csv_to_excel posix_refuses (parse_as ship_core_catalog) append_sheet
      (py "Assets") a_day catalog_world = (Ok tt, w')
    ∧ fs w' !! catalog_xlsx (py "Assets") = Some (File (Book book))
    ∧ first_seen (category_column ship_core_catalog 1)
      = [py "Ship System"; py "Core System"]
    ∧ sheet_names book
      = [py "Introduction"; py "Core System Files"; py "Ship System Files"]
    ∧ ¬ first_seen_order ship_core_catalog 1 book.
Proof.
  exists (convert_csv_to_excel posix_refuses (parse_as ship_core_catalog)
            append_sheet (py "Assets") a_day catalog_world).2,
         (catalog_book a_day ship_core_catalog 1).
  split; [by vm_compute|]. split; [by vm_compute|].
  split; [by vm_compute|]. split; [by vm_compute|].
  unfold first_seen_order. vm_compute. discriminate.
Qed.

(** C2 as worded fails: the row of [uncategorised_catalog] without a
    category is in no sheet. *)
Lemma rows_without_category_dropped :
  ∃ w' (book : workbook),
    convert_csv_to_excel posix_refuses (parse_as uncategorised_catalog)
      append_sheet (py "Assets") a_day catalog_world = (Ok tt, w')
    ∧ fs w' !! catalog_xlsx (py "Assets") = Some (File (Book book))
    ∧ category_sheet_rows book
      = [[CStr (py "GameManager.cs"); CStr (py "Core System")]]
    ∧ ¬ (category_sheet_rows book ≡ₚ body uncategorised_catalog).
Proof.
  exists (convert_csv_to_excel posix_refuses (parse_as uncategorised_catalog)
            append_sheet (py "Assets") a_day catalog_world).2,
         (catalog_book a_day uncategorised_catalog 1).
  split; [by vm_compute|]. split; [by vm_compute|].
  split; [by vm_compute|].
  intros Hperm. apply Permutation_length in Hperm. by vm_compute in Hperm.
Qed.

(** C4 as worded fails in its last part: the sheets are as listed, but
    the title "Visual Effects Files" is not the result of the
    replacement. *)
Lemma visual_effects_named_by_renaming :
  ∃ w' (book : workbook),
    convert_csv_to_excel posix_refuses (parse_as three_category_catalog)
      append_sheet (py "Assets") a_day catalog_world = (Ok tt, w')
    ∧ fs w' !! catalog_xlsx (py "Assets") = Some (File (Book book))
    ∧ sheet_names book
      = [py "Introduction"; py "Core System Files";
         py "Ship System Files"; py "Visual Effects Files"]
    ∧ category_column three_category_catalog 1
      = [py "Core System"; py "Ship System"; py "Visual Effects"]
    ∧ ¬ Forall by_replacement_alone (category_column three_category_catalog 1).
Proof.
  exists (convert_csv_to_excel posix_refuses (parse_as three_category_catalog)
            append_sheet (py "Assets") a_day catalog_world).2,
         (catalog_book a_day three_category_catalog 1).
  split; [by vm_compute|]. split; [by vm_compute|].
  split; [by vm_compute|]. split; [by vm_compute|].
  intros Hall. apply Forall_cons in Hall as [_ Hall].
  apply Forall_cons in Hall as [_ Hall].
  apply Forall_cons in Hall as [Hve _].
  unfold by_replacement_alone in Hve. by vm_compute in Hve.
Qed.

(** C6 as worded fails for accented letters: "café" is left as it is,
    where the sanitization worded with ASCII letters gives "caf". *)
Lemma accented_letter_is_kept :
  (∀ unicode_alnum,
     clean_filename unicode_alnum (py "caf" ++ [e_acute]) = py "caf" ++ [e_acute])
  ∧ sanitize_ascii (py "caf" ++ [e_acute]) = py "caf"
  ∧ ¬ (∀ unicode_alnum s, clean_filename unicode_alnum s = sanitize_ascii s).
Proof.
  split; [by intros ua|]. split; [reflexivity|].
  intros Hall. specialize (Hall latin1_only (py "caf" ++ [e_acute])).
  by vm_compute in Hall.
Qed.
